(** * lifeimprove: the goal-progress handler and the schedule screen

    A shallow embedding of

    - [api/goals/[id]/progress.js]: the [PUT /api/goals/{id}/progress]
      handler, and
    - the [ScheduleScreen] component: its [fetchSchedule] and [addTask]
      actions,

    together with the properties the specification states about them.

    JavaScript values are modelled as a small inductive type whose numbers
    are IEEE-754 values ([spec_float]); documents and JSON objects are
    association lists in insertion order.  Code that awaits collaborators
    (the database, the schedule service) runs in a small monad that threads
    the collaborator's state, records the calls made and propagates
    exceptions the way [throw] / [try] / [catch] / [finally] do. *)

From Stdlib Require Import String Ascii List ZArith Bool Lia.
From Stdlib Require Import Floats.SpecFloat.
Import ListNotations.

Local Open Scope string_scope.
Local Open Scope Z_scope.
Local Open Scope list_scope.

(** ** JavaScript values *)

Module Js.

(** A JavaScript number is an IEEE-754 double. *)
Definition number := spec_float.

#[warnings="-register-all"]
Inductive value : Type :=
| Undefined
| Null
| Bool (b : bool)
| Number (x : number)
| String (s : string)
| Array (items : list value)
| Object (fields : list (string * value)).

(** An object is the list of its own properties, in insertion order. *)
Definition object := list (string * value).

(** [o[k]]: the value of an own property, [undefined] when absent. *)
Fixpoint get (o : object) (k : string) : value :=
  match o with
  | [] => Undefined
  | (k', v) :: rest => if String.eqb k' k then v else get rest k
  end.

(** [o[k] = v]: overwrite the property in place, or append it. *)
Fixpoint set (o : object) (k : string) (v : value) : object :=
  match o with
  | [] => [(k, v)]
  | (k', v') :: rest =>
      if String.eqb k' k then (k', v) :: rest else (k', v') :: set rest k v
  end.

(** [v === 'literal'] *)
Definition is_string (v : value) (s : string) : bool :=
  match v with
  | String t => String.eqb t s
  | _ => false
  end.

(** [v == null]: is [v] one of [undefined] and [null]? *)
Definition nullish (v : value) : bool :=
  match v with
  | Undefined | Null => true
  | _ => false
  end.

(** [v[k]] for a value that is not nullish.  Only own properties of
    objects are modelled: array elements, [length] and inherited members
    are not, and the code reads none of them. *)
Definition property (v : value) (k : string) : value :=
  match v with
  | Object fields => get fields k
  | _ => Undefined
  end.

(** [v !== undefined] *)
Definition is_defined (v : value) : bool :=
  match v with
  | Undefined => false
  | _ => true
  end.

(** *** Numbers *)

Definition NaN : number := S754_nan.
Definition pos_zero : number := S754_zero false.
Definition neg_zero : number := S754_zero true.
Definition pos_infinity : number := S754_infinity false.
Definition neg_infinity : number := S754_infinity true.

(** Small integers as doubles: a 53-bit mantissa and its exponent. *)
Definition num_1 : number := S754_finite false 4503599627370496 (-52).
Definition num_20 : number := S754_finite false 5629499534213120 (-48).
Definition num_50 : number := S754_finite false 7036874417766400 (-47).
Definition num_100 : number := S754_finite false 7036874417766400 (-46).
Definition num_150 : number := S754_finite false 5277655813324800 (-45).
Definition num_neg20 : number := SFopp num_20.

(** Is [x] a double: 53 bits of precision, exponents up to 1024? *)
Definition is_double (x : number) : bool := valid_binary 53 1024 x.

Definition is_nan (x : number) : bool :=
  match x with
  | S754_nan => true
  | _ => false
  end.

Definition is_pos_zero (x : number) : bool :=
  match x with
  | S754_zero false => true
  | _ => false
  end.

Definition is_neg_zero (x : number) : bool :=
  match x with
  | S754_zero true => true
  | _ => false
  end.

(** [x < y] and [x <= y] on numbers; both are false when either is NaN. *)
Definition lt (x y : number) : bool := SFltb x y.
Definition le (x y : number) : bool := SFleb x y.

(** [Math.max(...)]: start from -Infinity; NaN is contagious and +0 is
    larger than -0. *)
Fixpoint max_from (highest : number) (args : list number) : number :=
  match args with
  | [] => highest
  | n :: rest =>
      if is_nan n then NaN
      else
        let highest :=
          if is_pos_zero n && is_neg_zero highest then pos_zero else highest in
        let highest := if lt highest n then n else highest in
        max_from highest rest
  end.

Definition Math_max (args : list number) : number :=
  max_from neg_infinity args.

(** [Math.min(...)]: start from +Infinity; NaN is contagious and -0 is
    smaller than +0. *)
Fixpoint min_from (lowest : number) (args : list number) : number :=
  match args with
  | [] => lowest
  | n :: rest =>
      if is_nan n then NaN
      else
        let lowest :=
          if is_neg_zero n && is_pos_zero lowest then neg_zero else lowest in
        let lowest := if lt n lowest then n else lowest in
        min_from lowest rest
  end.

Definition Math_min (args : list number) : number :=
  min_from pos_infinity args.

(** The parts of the language run time the code relies on without
    spelling them out: the numeric reading of strings and of objects, and
    the wording of the TypeError raised when property [k] is read from
    [undefined] or [null]. *)
Class Engine := {
  StringToNumber : string -> number;
  ObjectToNumber : value -> number;
  nullish_message : value -> string -> string
}.

(** [ToNumber(v)], applied by [Math.max] to each argument. *)
Definition ToNumber {engine : Engine} (v : value) : number :=
  match v with
  | Undefined => NaN
  | Null => pos_zero
  | Bool true => num_1
  | Bool false => pos_zero
  | Number x => x
  | String s => StringToNumber s
  | Array _ | Object _ => ObjectToNumber v
  end.

(** *** Strings

    A string is its sequence of code units; the model keeps the code units
    below 256.  Of those, [trim] strips the white space and line
    terminators: TAB, LF, VT, FF, CR, SP and NBSP. *)

Definition is_white_space (c : ascii) : bool :=
  let n := N_of_ascii c in
  ((9 <=? n) && (n <=? 13) || (n =? 32) || (n =? 160))%N.

Fixpoint trimStart (s : string) : string :=
  match s with
  | EmptyString => EmptyString
  | String.String c rest => if is_white_space c then trimStart rest else s
  end.

Fixpoint trimEnd (s : string) : string :=
  match s with
  | EmptyString => EmptyString
  | String.String c rest =>
      match trimEnd rest with
      | EmptyString => if is_white_space c then EmptyString else String.String c EmptyString
      | kept => String.String c kept
      end
  end.

(** [s.trim()] *)
Definition trim (s : string) : string := trimEnd (trimStart s).

(** A string is truthy unless it is empty. *)
Definition truthy_string (s : string) : bool :=
  match s with
  | EmptyString => false
  | _ => true
  end.

End Js.

(** ** Awaiting collaborators

    A computation runs against the state [S] of whatever it talks to,
    records the events [E] it causes in order, and ends in a value or in a
    thrown exception.  State changes and events made before a [throw]
    persist, as side effects do. *)

Module Eff.

(** A thrown [Error]; the code only ever reads its [message]. *)
Record exn : Type := Error { message : Js.value }.

Definition outcome (A : Type) : Type := (exn + A)%type.

Definition M (S E A : Type) : Type := S -> S * list E * outcome A.

Section Ops.
Context {S E : Type}.

Definition ret {A} (a : A) : M S E A :=
  fun s => (s, [], inr a).

Definition throw {A} (e : exn) : M S E A :=
  fun s => (s, [], inl e).

Definition bind {A B} (m : M S E A) (k : A -> M S E B) : M S E B :=
  fun s =>
    match m s with
    | (s1, t1, inl e) => (s1, t1, inl e)
    | (s1, t1, inr a) =>
        match k a s1 with
        | (s2, t2, r) => (s2, t1 ++ t2, r)
        end
    end.

(** [try { m } catch (e) { h e }] *)
Definition try_catch {A} (m : M S E A) (h : exn -> M S E A) : M S E A :=
  fun s =>
    match m s with
    | (s1, t1, inl e) =>
        match h e s1 with
        | (s2, t2, r) => (s2, t1 ++ t2, r)
        end
    | done => done
    end.

(** [try { m } finally { f }]: [f] runs either way; the outcome of [m]
    stands unless [f] itself throws. *)
Definition try_finally {A} (m : M S E A) (f : M S E unit) : M S E A :=
  fun s =>
    match m s with
    | (s1, t1, r) =>
        match f s1 with
        | (s2, t2, inl e) => (s2, t1 ++ t2, inl e)
        | (s2, t2, inr _) => (s2, t1 ++ t2, r)
        end
    end.

(** Record an event. *)
Definition emit (ev : E) : M S E unit :=
  fun s => (s, [ev], inr tt).

(** Update the state. *)
Definition modify (f : S -> S) : M S E unit :=
  fun s => (f s, [], inr tt).

(** Call a collaborator: the call is recorded, then answered. *)
Definition call {A} (ev : E) (f : S -> S * outcome A) : M S E A :=
  fun s =>
    match f s with
    | (s1, r) => (s1, [ev], r)
    end.

End Ops.

Module Notations.
Declare Scope eff_scope.
Delimit Scope eff_scope with eff.
Notation "x <- m ;; k" := (bind m (fun x => k))
  (at level 61, m at next level, right associativity) : eff_scope.
Notation "m ;; k" := (bind m (fun _ => k))
  (at level 61, right associativity) : eff_scope.
End Notations.

End Eff.

(** ** [PUT /api/goals/{id}/progress] *)

Module Progress.
Import Eff.Notations.

(** A goal document, as the handler sees it: an object with (at least)
    [_id], [userId], [type], [currentValue] and [progress]. *)
Definition goal := Js.object.

(** The filter [{ _id, userId }] handed to [Goal.findOne]. *)
Record filter : Type := Filter { _id : Js.value; userId : Js.value }.

(** What the handler reads of [req].  [token] is the credential the
    authentication middleware inspects; [req_userId] is what the middleware
    left in [req.userId]. *)
Record request : Type := Request {
  method : string;
  query : Js.object;
  body : Js.value;
  token : option string;
  req_userId : Js.value
}.

(** What the handler did to [res]: the headers set, the status, and the
    JSON body sent ([None] after a bare [end()]). *)
Record response : Type := Response {
  headers : Js.object;
  status : Z;
  sent : option Js.value
}.

(** The calls the handler makes, in the order it makes them. *)
Inductive event : Type :=
| ConnectDB
| FindOne (q : filter)
| Save (g : goal)
| ConsoleError (label : string) (e : Eff.exn).

(** The collaborators of the handler: [connectDB] from [lib/mongodb.js]
    and the [Goal] model.  Each call may change the database and may
    throw.  [save] answers with the document as saving leaves it (saving
    recalculates [progress] for numeric and habit goals). *)
Class GoalStore (Db : Type) := {
  connectDB : Db -> Db * Eff.outcome unit;
  findOne : filter -> Db -> Db * Eff.outcome (option goal);
  save : goal -> Db -> Db * Eff.outcome goal
}.

Definition setHeader (name : string) (v : Js.value) (res : response) : response :=
  {| headers := Js.set (headers res) name v;
     status := status res;
     sent := sent res |}.

Definition with_status (code : Z) (res : response) : response :=
  {| headers := headers res; status := code; sent := sent res |}.

Definition json (payload : Js.value) (res : response) : response :=
  {| headers := headers res; status := status res; sent := Some payload |}.

Definition end_ (res : response) : response :=
  {| headers := headers res; status := status res; sent := None |}.

(** A response nothing has been written to yet. *)
Definition fresh_response : response :=
  {| headers := []; status := 200; sent := None |}.

(** The four [res.setHeader] calls that open the handler. *)
Definition cors (res : response) : response :=
  setHeader "Access-Control-Allow-Headers"
    (Js.String "X-CSRF-Token, X-Requested-With, Accept, Accept-Version, Content-Length, Content-MD5, Content-Type, Date, X-Api-Version, Authorization")
    (setHeader "Access-Control-Allow-Methods"
       (Js.String "GET,OPTIONS,PATCH,DELETE,POST,PUT")
       (setHeader "Access-Control-Allow-Origin" (Js.String "*")
          (setHeader "Access-Control-Allow-Credentials" (Js.Bool true) res))).

(** Handler code: computations over the database that record [event]s. *)
Definition M (Db : Type) : Type -> Type := Eff.M Db event.

Section Handler.
Context {Db : Type} {store : GoalStore Db} {engine : Js.Engine}.

Local Open Scope eff_scope.

(** [const { currentValue, progress } = req.body]: destructuring
    [undefined] or [null] throws a TypeError; any other value is read
    property by property. *)
Definition destructure (b : Js.value) : M Db (Js.value * Js.value) :=
  if Js.nullish b then
    Eff.throw (Eff.Error (Js.String (Js.nullish_message b "currentValue")))
  else
    Eff.ret (Js.property b "currentValue", Js.property b "progress").

(** [Math.min(Math.max(progress, 0), 100)] *)
Definition clamp (progress : Js.value) : Js.number :=
  Js.Math_min [Js.Math_max [Js.ToNumber progress; Js.pos_zero]; Js.num_100].

(** [goal.type === 'numeric' || goal.type === 'habit'] *)
Definition tracks_value (g : goal) : bool :=
  Js.is_string (Js.get g "type") "numeric"
  || Js.is_string (Js.get g "type") "habit".

(** [goal.type === 'milestone'] *)
Definition is_milestone (g : goal) : bool :=
  Js.is_string (Js.get g "type") "milestone".

(** The update rule: lines 38 to 46 of the handler. *)
Definition update (g : goal) (currentValue progress : Js.value) : goal :=
  if tracks_value g
  then
    if Js.is_defined currentValue
    then Js.set g "currentValue" currentValue
    else g
  else if is_milestone g
  then
    if Js.is_defined progress
    then Js.set g "progress" (Js.Number (clamp progress))
    else g
  else g.

Definition not_allowed_body : Js.value :=
  Js.Object [("error", Js.String "Method not allowed")].

Definition not_found_body : Js.value :=
  Js.Object [("error", Js.String "Goal not found")].

Definition success_body (g : goal) : Js.value :=
  Js.Object [("message", Js.String "Progress updated successfully");
             ("goal", Js.Object g)].

Definition server_error_body (e : Eff.exn) : Js.value :=
  Js.Object [("error", Js.String "Server error");
             ("details", Eff.message e)].

(** The filter of the owner-scoped lookup:
    [{ _id: req.query.id, userId: req.userId }]. *)
Definition owner_filter (req : request) : filter :=
  {| _id := Js.get (query req) "id"; userId := req_userId req |}.

Definition handler (req : request) : M Db response :=
  let res := cors fresh_response in
  if String.eqb (method req) "OPTIONS" then
    Eff.ret (end_ (with_status 200 res))
  else if negb (String.eqb (method req) "PUT") then
    Eff.ret (json not_allowed_body (with_status 405 res))
  else
    Eff.try_catch
      (Eff.call ConnectDB connectDB ;;
       let q := owner_filter req in
       found <- Eff.call (FindOne q) (findOne q) ;;
       match found with
       | None => Eff.ret (json not_found_body (with_status 404 res))
       | Some g =>
           fields <- destructure (body req) ;;
           let g := update g (fst fields) (snd fields) in
           g <- Eff.call (Save g) (save g) ;;
           Eff.ret (json (success_body g) (with_status 200 res))
       end)
      (fun error =>
         Eff.emit (ConsoleError "Progress update error:" error) ;;
         Eff.ret (json (server_error_body error) (with_status 500 res))).

(** *** Reading a run *)

(** The response with the CORS headers, status [code] and JSON [payload]. *)
Definition reply (code : Z) (payload : Js.value) : response :=
  json payload (with_status code (cors fresh_response)).

(** The handler, started on database [d], connects, looks the goal up,
    and hands document [g] to [save] on database [d2]: nothing else is
    called; it answers 200 with the document as [save] leaves it, or 500
    when [save] throws. *)
Definition Saves (req : request) (d d2 : Db) (g : goal) : Prop :=
  match save g d2 with
  | (d3, inr saved) =>
      handler req d =
        (d3, [ConnectDB; FindOne (owner_filter req); Save g],
         inr (reply 200 (success_body saved)))
  | (d3, inl e) =>
      handler req d =
        (d3, [ConnectDB; FindOne (owner_filter req); Save g;
              ConsoleError "Progress update error:" e],
         inr (reply 500 (server_error_body e)))
  end.

(** The handler, started on database [d], stops after the lookup on
    database [d2] with a TypeError for the missing body: nothing is
    saved and the answer is 500. *)
Definition Rejects_body (req : request) (d d2 : Db) : Prop :=
  let e := Eff.Error (Js.String (Js.nullish_message (body req) "currentValue")) in
  handler req d =
    (d2, [ConnectDB; FindOne (owner_filter req);
          ConsoleError "Progress update error:" e],
     inr (reply 500 (server_error_body e))).

(** The lookup of [req] on database [d] succeeds with document [g],
    leaving database [d2]. *)
Definition Finds (req : request) (d d2 : Db) (g : goal) : Prop :=
  exists d1,
    connectDB d = (d1, inr tt) /\
    findOne (owner_filter req) d1 = (d2, inr (Some g)).

End Handler.

(** *** The authentication middleware *)

(** Modelled from the spec: what [lib/auth-middleware.js], which is not
    among the sources, decides.  The middleware "rejects with 401/403
    semantics [...] if the token is absent or invalid"; which tokens are
    valid, whose they are, and the exact rejection are left open. *)
Class AuthPolicy := {
  authenticate : option string -> option Js.value;
  rejection : response;
  absent_rejected : authenticate None = None;
  rejection_status : status rejection = 401 \/ status rejection = 403
}.


Section Endpoint.
Context {Db : Type} {store : GoalStore Db} {engine : Js.Engine}
        {policy : AuthPolicy}.



End Endpoint.

End Progress.

(** ** A reference store

    A goal collection held in memory, used to run the handler on concrete
    requests. *)

Module Memory.
Import Progress.

Definition db := list goal.

Definition same_string (v w : Js.value) : bool :=
  match v, w with
  | Js.String a, Js.String b => String.eqb a b
  | _, _ => false
  end.

(** Does document [g] satisfy the filter [{ _id, userId }]? *)
Definition matches (q : filter) (g : goal) : bool :=
  same_string (Js.get g "_id") (_id q)
  && same_string (Js.get g "userId") (userId q).

Section Store.

(** The formula that derives [progress] on save, which the spec leaves
    open. *)
Variable derived : goal -> Js.value.

(** Modelled from the spec: the save hook of [models/Goal.js], which is
    not among the sources.  Numeric and habit goals recompute "a derived
    [progress] percentage on save"; milestone goals "store [progress]
    directly". *)
Definition presave (g : goal) : goal :=
  if tracks_value g
  then Js.set g "progress" (derived g)
  else g.

(** Put a document back in place of the one with its [_id]. *)
Definition put (g : goal) (d : db) : db :=
  map (fun old => if same_string (Js.get old "_id") (Js.get g "_id") then g else old) d.

(** The collection as a store: the connection always succeeds, the
    lookup "loads the goal matching both the path id and the authenticated
    user id" (the first document that satisfies the filter), and saving
    runs the hook and puts the document back. *)
#[local] Instance store : GoalStore db := {
  connectDB d := (d, inr tt);
  findOne q d := (d, inr (find (matches q) d));
  save g d := let g' := presave g in (put g' d, inr g')
}.

End Store.

(** Some document of [d] has id [id], and every document with that id
    belongs to a user other than [uid]. *)
Definition owned_by_other (d : db) (id uid : Js.value) : Prop :=
  (exists g, In g d /\ same_string (Js.get g "_id") id = true) /\
  (forall g, In g d -> same_string (Js.get g "_id") id = true ->
             same_string (Js.get g "userId") uid = false).

(** No document of [d] has id [id]. *)
Definition no_such_goal (d : db) (id : Js.value) : Prop :=
  forall g, In g d -> same_string (Js.get g "_id") id = false.

(** A stand-in for the derivation of [progress] on save: it reports the
    current value. *)
Definition mirror (g : goal) : Js.value := Js.get g "currentValue".

(** An engine that reads no number out of strings and objects. *)
Definition engine : Js.Engine := {|
  Js.StringToNumber := fun _ => Js.NaN;
  Js.ObjectToNumber := fun _ => Js.NaN;
  Js.nullish_message := fun _ k => String.append "Cannot read property " k
|}.

(** A policy with a single valid token, which belongs to user [u1]. *)
Definition policy : AuthPolicy := {|
  authenticate := fun t =>
    match t with
    | Some s => if String.eqb s "token-u1" then Some (Js.String "u1") else None
    | None => None
    end;
  rejection := json (Js.Object [("error", Js.String "Unauthorized")])
                 (with_status 401 fresh_response);
  absent_rejected := eq_refl;
  rejection_status := or_introl eq_refl
|}.

(** Sample documents: two goals of user [u1], one of user [u2]. *)
Definition milestone_goal : goal :=
  [("_id", Js.String "g1"); ("userId", Js.String "u1");
   ("type", Js.String "milestone");
   ("currentValue", Js.Number Js.pos_zero); ("progress", Js.Number Js.num_50)].

Definition numeric_goal : goal :=
  [("_id", Js.String "g2"); ("userId", Js.String "u1");
   ("type", Js.String "numeric");
   ("currentValue", Js.Number Js.num_20); ("progress", Js.Number Js.num_20)].

Definition foreign_goal : goal :=
  [("_id", Js.String "g3"); ("userId", Js.String "u2");
   ("type", Js.String "habit");
   ("currentValue", Js.Number Js.num_1); ("progress", Js.Number Js.num_1)].

Definition untyped_goal : goal :=
  [("_id", Js.String "g4"); ("userId", Js.String "u1");
   ("type", Js.String "checklist");
   ("currentValue", Js.Number Js.num_1); ("progress", Js.Number Js.num_50)].

Definition sample_db : db :=
  [milestone_goal; numeric_goal; foreign_goal; untyped_goal].

(** The reference store, deriving progress with [mirror]. *)
Definition sample_store : GoalStore db := store mirror.

(** A request of user [u1], as it reaches the handler. *)
Definition request_of (m id : string) (b : Js.value) : request :=
  {| method := m;
     query := [("id", Js.String id)];
     body := b;
     token := Some "token-u1";
     req_userId := Js.String "u1" |}.

End Memory.

(** ** The schedule screen *)

Module Schedule.
Import Eff.Notations.

Inductive category : Type := physical | mental | financial | social | personal.

(** [interface ScheduleBlock] *)
Module ScheduleBlock.
Record t : Type := Make {
  id : string;
  title : string;
  category : Schedule.category;
  startTime : string;
  endTime : string;
  completed : bool;
  goalId : option string
}.
End ScheduleBlock.

(** The add-task form, [newTask]. *)
Module NewTask.
Record t : Type := Make {
  title : string;
  category : Schedule.category;
  startTime : string;
  endTime : string
}.
End NewTask.

(** What [getSchedule] resolves to.  The code guards both fields with
    [||], so either may be missing. *)
Module Fetched.
Record t : Type := Make {
  blocks : option (list ScheduleBlock.t);
  _id : option string
}.
End Fetched.

(** What [updateSchedule] resolves to; the code uses both fields as they
    come. *)
Module Updated.
Record t : Type := Make {
  blocks : list ScheduleBlock.t;
  _id : string
}.
End Updated.

(** A [Date], as its time value in milliseconds. *)
Definition Date := Z.

(** The component state: one field per [useState]. *)
Record state : Type := State {
  selectedDate : Date;
  schedule : list ScheduleBlock.t;
  scheduleId : string;
  loading : bool;
  refreshing : bool;
  showAddModal : bool;
  showDatePicker : bool;
  editingBlock : option ScheduleBlock.t;
  newTask : NewTask.t
}.

(** What an action causes outside the component state. *)
Inductive event : Type :=
| FormatDateForAPI (d : Date)
| GenerateBlockId
| GetSchedule (dateStr : string)
| UpdateSchedule (dateStr : string) (blocks : list ScheduleBlock.t)
| Alert (title message : string)
| ConsoleError (label : string) (e : Eff.exn).

(** The events that are requests to the server. *)
Definition is_request (ev : event) : bool :=
  match ev with
  | GetSchedule _ | UpdateSchedule _ _ => true
  | _ => false
  end.

(** [scheduleService], the external collaborator: two client-side helpers
    and two requests.  [W] is the state of everything behind it.  A
    request resolves to a document, to a nullish value ([None]), or
    rejects. *)
Class ScheduleService (W : Type) := {
  formatDateForAPI : Date -> W -> W * Eff.outcome string;
  generateBlockId : W -> W * Eff.outcome string;
  getSchedule : string -> W -> W * Eff.outcome (option Fetched.t);
  updateSchedule : string -> list ScheduleBlock.t -> W -> W * Eff.outcome (option Updated.t)
}.

(** Actions run over the service's world and the component state. *)
Definition M (W : Type) : Type -> Type := Eff.M (W * state) event.

Section Setters.
Context {W : Type}.

Definition set_state (f : state -> state) : M W unit :=
  Eff.modify (fun ws => (fst ws, f (snd ws))).

Definition setSchedule (v : list ScheduleBlock.t) : M W unit :=
  set_state (fun st =>
    State (selectedDate st) v (scheduleId st) (loading st) (refreshing st)
          (showAddModal st) (showDatePicker st) (editingBlock st) (newTask st)).

Definition setScheduleId (v : string) : M W unit :=
  set_state (fun st =>
    State (selectedDate st) (schedule st) v (loading st) (refreshing st)
          (showAddModal st) (showDatePicker st) (editingBlock st) (newTask st)).

Definition setLoading (v : bool) : M W unit :=
  set_state (fun st =>
    State (selectedDate st) (schedule st) (scheduleId st) v (refreshing st)
          (showAddModal st) (showDatePicker st) (editingBlock st) (newTask st)).

Definition setRefreshing (v : bool) : M W unit :=
  set_state (fun st =>
    State (selectedDate st) (schedule st) (scheduleId st) (loading st) v
          (showAddModal st) (showDatePicker st) (editingBlock st) (newTask st)).

Definition setShowAddModal (v : bool) : M W unit :=
  set_state (fun st =>
    State (selectedDate st) (schedule st) (scheduleId st) (loading st)
          (refreshing st) v (showDatePicker st) (editingBlock st) (newTask st)).

Definition setNewTask (v : NewTask.t) : M W unit :=
  set_state (fun st =>
    State (selectedDate st) (schedule st) (scheduleId st) (loading st)
          (refreshing st) (showAddModal st) (showDatePicker st)
          (editingBlock st) v).

(** Call the service: it acts on the world and leaves the component
    state alone. *)
Definition service {A} (ev : event) (f : W -> W * Eff.outcome A) : M W A :=
  Eff.call ev (fun ws =>
    match f (fst ws) with
    | (w, r) => ((w, snd ws), r)
    end).

Definition alert (title message : string) : M W unit :=
  Eff.emit (Alert title message).

End Setters.

Section Actions.
Context {W : Type} {svc : ScheduleService W} {engine : Js.Engine}.

Local Open Scope eff_scope.

(** Reading a property of what a request resolved to: a TypeError when
    it resolved to a nullish value. *)
Definition resolved {A} (data : option A) (k : string) : M W A :=
  match data with
  | Some d => Eff.ret d
  | None => Eff.throw (Eff.Error (Js.String (Js.nullish_message Js.Undefined k)))
  end.

(** [x || fallback] for a field that may be missing. *)
Definition or_else {A} (x : option A) (fallback : A) : A :=
  match x with
  | Some v => v
  | None => fallback
  end.

(** [_id || '']: an empty id is falsy too. *)
Definition id_or_empty (x : option string) : string :=
  match x with
  | Some v => if Js.truthy_string v then v else ""
  | None => ""
  end.

(** [fetchSchedule], with the render's [user] and state [st]. *)
Definition fetchSchedule (user : option Js.object) (st : state) : M W unit :=
  match user with
  | None => Eff.ret tt
  | Some _ =>
      Eff.try_finally
        (Eff.try_catch
           (dateStr <- service (FormatDateForAPI (selectedDate st))
                         (formatDateForAPI (selectedDate st)) ;;
            data <- service (GetSchedule dateStr) (getSchedule dateStr) ;;
            data <- resolved data "blocks" ;;
            setSchedule (or_else (Fetched.blocks data) []) ;;
            setScheduleId (id_or_empty (Fetched._id data)))
           (fun error =>
              Eff.emit (ConsoleError "Error fetching schedule:" error) ;;
              alert "Error" "Failed to load schedule"))
        (setLoading false ;;
         setRefreshing false)
  end.

(** The form as [addTask] resets it. *)
Definition blank_task : NewTask.t :=
  NewTask.Make "" personal "09:00" "10:00".

(** [addTask], with the render's state [st]. *)
Definition addTask (st : state) : M W unit :=
  if negb (Js.truthy_string (Js.trim (NewTask.title (newTask st)))) then
    alert "Error" "Please enter a task title"
  else
    id <- service GenerateBlockId generateBlockId ;;
    let newBlock :=
      ScheduleBlock.Make id
        (NewTask.title (newTask st))
        (NewTask.category (newTask st))
        (NewTask.startTime (newTask st))
        (NewTask.endTime (newTask st))
        false
        None in
    Eff.try_catch
      (dateStr <- service (FormatDateForAPI (selectedDate st))
                    (formatDateForAPI (selectedDate st)) ;;
       updatedSchedule <- service (UpdateSchedule dateStr (schedule st ++ [newBlock]))
                            (updateSchedule dateStr (schedule st ++ [newBlock])) ;;
       updatedSchedule <- resolved updatedSchedule "blocks" ;;
       setSchedule (Updated.blocks updatedSchedule) ;;
       setScheduleId (Updated._id updatedSchedule) ;;
       setShowAddModal false ;;
       setNewTask blank_task)
      (fun error => alert "Error" "Failed to add task").

End Actions.

(** *** Reading a run *)

(** The state once [loading] and [refreshing] are cleared. *)
Definition settled (st : state) : state :=
  State (selectedDate st) (schedule st) (scheduleId st) false false
        (showAddModal st) (showDatePicker st) (editingBlock st) (newTask st).

(** The state once a block list and a schedule id are put in place. *)
Definition showing (blocks : list ScheduleBlock.t) (id : string) (st : state) : state :=
  State (selectedDate st) blocks id (loading st) (refreshing st)
        (showAddModal st) (showDatePicker st) (editingBlock st) (newTask st).

(** The two events of a failed fetch: the console line and the alert. *)
Definition load_failure (e : Eff.exn) : list event :=
  [ConsoleError "Error fetching schedule:" e;
   Alert "Error" "Failed to load schedule"].

(** *** A reference service

    Schedules kept per date string behind a connection that is up or
    down, used to run the actions on concrete states. *)

Module Demo.

Record world : Type := World {
  online : bool;
  stored : list (string * Fetched.t);
  next_id : string
}.

(** The days the reference service can format. *)
Definition calendar : list (Date * string) :=
  [(0, "1970-01-01"); (86400000, "1970-01-02")].

Fixpoint day_of (d : Date) (l : list (Date * string)) : option string :=
  match l with
  | [] => None
  | (d', s) :: rest => if d' =? d then Some s else day_of d rest
  end.

Definition invalid_date : Eff.exn :=
  Eff.Error (Js.String "Invalid time value").

Definition offline_error : Eff.exn :=
  Eff.Error (Js.String "Network request failed").

Fixpoint lookup (k : string) (l : list (string * Fetched.t)) : option Fetched.t :=
  match l with
  | [] => None
  | (k', d) :: rest => if String.eqb k' k then Some d else lookup k rest
  end.

#[local] Instance service : ScheduleService world := {
  formatDateForAPI d w :=
    match day_of d calendar with
    | Some s => (w, inr s)
    | None => (w, inl invalid_date)
    end;
  generateBlockId w := (w, inr (next_id w));
  getSchedule dateStr w :=
    if online w
    then (w, inr (Some (or_else (lookup dateStr (stored w))
                                (Fetched.Make None None))))
    else (w, inl offline_error);
  updateSchedule dateStr blocks w :=
    if online w
    then (World true ((dateStr, Fetched.Make (Some blocks) (Some "s1")) :: stored w)
                (next_id w),
          inr (Some (Updated.Make blocks "s1")))
    else (w, inl offline_error)
}.

Definition walk : ScheduleBlock.t :=
  ScheduleBlock.Make "b1" "Morning walk" physical "07:00" "07:30" false None.

Definition read : ScheduleBlock.t :=
  ScheduleBlock.Make "b2" "Read" mental "20:00" "21:00" true None.

Definition up : world :=
  World true [("1970-01-01", Fetched.Make (Some [walk; read]) (Some "s0"))] "b9".

Definition down : world := World false [] "b9".

(** A screen showing one task, mid-refresh, with an empty form. *)
Definition screen : state :=
  State 0 [read] "s7" true true false false None blank_task.

End Demo.

End Schedule.

(** ** The block actions of the schedule screen

    [toggleTaskCompletion], [deleteTask] and [onRefresh], and what the
    screen derives from the block list. *)

Module Blocks.
Import Schedule.
Import Eff.Notations.

(** The buttons of the confirmation that [deleteTask] raises. *)
Inductive button : Type := Cancel | Delete.

(** What these actions cause: the events of the screen, the two block
    requests, and the confirmation with the text and style of each of its
    buttons. *)
Inductive event : Type :=
| Screen (ev : Schedule.event)
| UpdateScheduleBlock (scheduleId blockId : string) (completed : bool)
| DeleteScheduleBlock (scheduleId blockId : string)
| Confirm (title message : string) (buttons : list (string * string)).

(** The events that are requests to the server. *)
Definition is_request (ev : event) : bool :=
  match ev with
  | Screen ev => Schedule.is_request ev
  | UpdateScheduleBlock _ _ _ | DeleteScheduleBlock _ _ => true
  | Confirm _ _ _ => false
  end.

(** The two block requests of [scheduleService].  [updateScheduleBlock]
    is given the partial update [{ completed }]. *)
Class BlockService (W : Type) := {
  updateScheduleBlock : string -> string -> bool -> W -> W * Eff.outcome (option Updated.t);
  deleteScheduleBlock : string -> string -> W -> W * Eff.outcome (option Updated.t)
}.

Definition M (W : Type) : Type -> Type := Eff.M (W * state) event.

Section Actions.
Context {W : Type} {svc : ScheduleService W} {blocks : BlockService W}
        {engine : Js.Engine}.

Local Open Scope eff_scope.

(** Run a step of the screen among these actions. *)
Definition screen {A} (m : Schedule.M W A) : M W A :=
  fun s =>
    match m s with
    | (s1, t, r) => (s1, map Screen t, r)
    end.

(** Call a block request: it acts on the world and leaves the component
    state alone. *)
Definition request {A} (ev : event) (f : W -> W * Eff.outcome A) : M W A :=
  Eff.call ev (fun ws =>
    match f (fst ws) with
    | (w, r) => ((w, snd ws), r)
    end).

(** [toggleTaskCompletion(blockId)], with the render's state [st]. *)
Definition toggleTaskCompletion (blockId : string) (st : state) : M W unit :=
  if negb (Js.truthy_string (scheduleId st)) then Eff.ret tt
  else
    match find (fun b => String.eqb (ScheduleBlock.id b) blockId) (schedule st) with
    | None => Eff.ret tt
    | Some block =>
        Eff.try_catch
          (updatedSchedule <-
             request (UpdateScheduleBlock (scheduleId st) blockId
                        (negb (ScheduleBlock.completed block)))
                     (updateScheduleBlock (scheduleId st) blockId
                        (negb (ScheduleBlock.completed block))) ;;
           updatedSchedule <- screen (resolved updatedSchedule "blocks") ;;
           screen (setSchedule (Updated.blocks updatedSchedule)))
          (fun error => screen (alert "Error" "Failed to update task"))
    end.

(** The [onPress] of the Delete button. *)
Definition onPressDelete (blockId : string) (st : state) : M W unit :=
  if negb (Js.truthy_string (scheduleId st)) then Eff.ret tt
  else
    Eff.try_catch
      (updatedSchedule <-
         request (DeleteScheduleBlock (scheduleId st) blockId)
                 (deleteScheduleBlock (scheduleId st) blockId) ;;
       updatedSchedule <- screen (resolved updatedSchedule "blocks") ;;
       screen (setSchedule (Updated.blocks updatedSchedule)))
      (fun error => screen (alert "Error" "Failed to delete task")).

(** [deleteTask(blockId)], with the render's state [st] and the button
    the user goes on to press, if any.  The Cancel button has no
    [onPress]. *)
Definition deleteTask (blockId : string) (st : state) (pressed : option button)
  : M W unit :=
  Eff.emit (Confirm "Delete Task" "Are you sure you want to delete this task?"
              [("Cancel", "cancel"); ("Delete", "destructive")]) ;;
  match pressed with
  | Some Delete => onPressDelete blockId st
  | Some Cancel | None => Eff.ret tt
  end.

(** [onRefresh], with the render's [user] and state [st]. *)
Definition onRefresh (user : option Js.object) (st : state) : Schedule.M W unit :=
  setRefreshing true ;;
  fetchSchedule user st.

End Actions.

(** Is every code unit of [s] white space? *)
Fixpoint all_white_space (s : string) : bool :=
  match s with
  | EmptyString => true
  | String c rest => Js.is_white_space c && all_white_space rest
  end.

(** The block [addTask] builds from the form and a fresh id. *)
Definition new_block (id : string) (st : state) : ScheduleBlock.t :=
  ScheduleBlock.Make id
    (NewTask.title (newTask st))
    (NewTask.category (newTask st))
    (NewTask.startTime (newTask st))
    (NewTask.endTime (newTask st))
    false
    None.

(** The state after a task was added: the list and id of the response,
    the modal closed and the form blank. *)
Definition added (updated : Updated.t) (st : state) : state :=
  State (selectedDate st) (Updated.blocks updated) (Updated._id updated)
        (loading st) (refreshing st) false (showDatePicker st)
        (editingBlock st) blank_task.

(** [interface TimeSlot] *)
Module TimeSlot.
Record t : Type := Make {
  id : string;
  time : string;
  title : string;
  category : Schedule.category;
  completed : bool
}.
End TimeSlot.





(** *** A reference block service *)

Module Demo.
Import Schedule.Demo.

(** Flip, or drop, the blocks with a given id. *)
Definition with_completed (blockId : string) (v : bool) (b : ScheduleBlock.t)
  : ScheduleBlock.t :=
  if String.eqb (ScheduleBlock.id b) blockId
  then ScheduleBlock.Make (ScheduleBlock.id b) (ScheduleBlock.title b)
         (ScheduleBlock.category b) (ScheduleBlock.startTime b)
         (ScheduleBlock.endTime b) v (ScheduleBlock.goalId b)
  else b.

Definition blocks_of (scheduleId : string) (w : world) : list ScheduleBlock.t :=
  or_else (Fetched.blocks (or_else (lookup scheduleId (stored w))
                                   (Fetched.Make None None))) [].

#[local] Instance blocks : BlockService world := {
  updateScheduleBlock scheduleId blockId v w :=
    if online w
    then (w, inr (Some (Updated.Make
                          (map (with_completed blockId v) (blocks_of scheduleId w))
                          scheduleId)))
    else (w, inl offline_error);
  deleteScheduleBlock scheduleId blockId w :=
    if online w
    then (w, inr (Some (Updated.Make
                          (filter (fun b => negb (String.eqb (ScheduleBlock.id b) blockId))
                                  (blocks_of scheduleId w))
                          scheduleId)))
    else (w, inl offline_error)
}.

(** A service that keeps its schedules under their ids. *)
Definition up : world :=
  World true [("s7", Fetched.Make (Some [walk; read]) (Some "s7"))] "b9".

(** A screen showing both blocks of schedule [s7]. *)
Definition screen : state :=
  State 0 [walk; read] "s7" false false false false None blank_task.

(** The same screen before any schedule was saved for the day. *)
Definition unsaved : state :=
  State 0 [] "" false false false false None blank_task.

(** The screen with only spaces typed as the title. *)
Definition spaces : state :=
  State 0 [read] "s7" false false true false None
        (NewTask.Make "   " personal "09:00" "10:00").

(** The reference service on a device that cannot produce ids. *)
Definition no_entropy : Eff.exn :=
  Eff.Error (Js.String "crypto.getRandomValues() not supported").

Definition without_ids : ScheduleService world := {|
  formatDateForAPI := formatDateForAPI (ScheduleService := Schedule.Demo.service);
  generateBlockId := fun w => (w, inl no_entropy);
  getSchedule := getSchedule (ScheduleService := Schedule.Demo.service);
  updateSchedule := updateSchedule (ScheduleService := Schedule.Demo.service)
|}.

(** The screen with a title typed into the form. *)
Definition typing : state :=
  State 0 [read] "s7" false false true false None
        (NewTask.Make " Stretch " physical "06:00" "06:15").

End Demo.

End Blocks.

(** ** The tab bar of [AppNavigator] *)

Module Navigator.

(** [tabBarIcon]: the icon name for a route and its focus. *)
Definition tabBarIcon (routeName : string) (focused : bool) : string :=
  if String.eqb routeName "Dashboard" then
    if focused then "home" else "home-outline"
  else if String.eqb routeName "Goals" then
    if focused then "flag" else "flag-outline"
  else if String.eqb routeName "Schedule" then
    if focused then "calendar" else "calendar-outline"
  else if String.eqb routeName "Profile" then
    if focused then "person" else "person-outline"
  else "alert-circle".

(** The four [Tab.Screen]s, in order. *)
Definition tabs : list string := ["Dashboard"; "Goals"; "Schedule"; "Profile"].

(** What [AppNavigator] renders. *)
Inductive view : Type := Spinner | MainTabs | AuthStack.

(** [AppNavigator], with what [useAuth] gave. *)
Definition AppNavigator (user : option Js.object) (loading : bool) : view :=
  if loading then Spinner
  else
    match user with
    | Some _ => MainTabs
    | None => AuthStack
    end.

End Navigator.

(** ** A store that can fail

    The reference collection behind a connection that may be down and a
    server that may stop answering, used to run the error paths of the
    handler. *)

Module Faulty.
Import Progress.

Record db : Type := Db {
  reachable : bool;
  serving : bool;
  docs : Memory.db
}.

Definition refused : Eff.exn :=
  Eff.Error (Js.String "connect ECONNREFUSED").

Definition timed_out : Eff.exn :=
  Eff.Error (Js.String "operation timed out").

#[local] Instance store : GoalStore db := {
  connectDB d := if reachable d then (d, inr tt) else (d, inl refused);
  findOne q d :=
    if serving d then (d, inr (find (Memory.matches q) (docs d)))
    else (d, inl timed_out);
  save g d :=
    if serving d
    then (Db (reachable d) (serving d) (Memory.put g (docs d)), inr g)
    else (d, inl timed_out)
}.

Definition down : db := Db false true Memory.sample_db.
Definition degraded : db := Db true false Memory.sample_db.
Definition healthy : db := Db true true Memory.sample_db.

End Faulty.

(** ** Counting what a run of the handler did *)

Module Trace.
Import Progress.

Definition is_save (ev : event) : bool :=
  match ev with
  | Save _ => true
  | _ => false
  end.

(** How many times [save] was called. *)
Definition number_of_saves (trace : list event) : nat :=
  length (List.filter is_save trace).

(** Was any collaborator called, or anything logged? *)
Definition quiet (trace : list event) : bool :=
  match trace with
  | [] => true
  | _ => false
  end.

End Trace.

(** ** Proof steps *)

(** Expose the steps of a run so that the answers of the collaborators
    can be rewritten in. *)
Ltac expose_run :=
  unfold Eff.try_finally, Eff.try_catch, Eff.bind, Eff.call; simpl.

(** ** Facts about numbers and objects *)

Module JsFacts.

Lemma compare_cont_opp (p q : positive) :
  Pos.compare_cont Eq q p = CompOpp (Pos.compare_cont Eq p q).
Proof. exact (Pos.compare_antisym p q). Qed.

(** The number literals of the model are doubles. *)
Lemma literals_are_doubles :
  forallb Js.is_double
    [Js.pos_zero; Js.neg_zero; Js.num_1; Js.num_20; Js.num_neg20;
     Js.num_50; Js.num_100; Js.num_150] = true.
Proof. reflexivity. Qed.

(** Comparison of doubles is antisymmetric. *)
Lemma SFcompare_opp (x y : Js.number) :
  SFcompare y x = option_map CompOpp (SFcompare x y).
Proof.
  destruct x as [sx | sx | | sx mx ex], y as [sy | sy | | sy my ey];
    simpl; try reflexivity;
    try (destruct sx; reflexivity);
    try (destruct sy; reflexivity);
    try (destruct sx, sy; reflexivity).
  destruct sx, sy; simpl; try reflexivity;
    rewrite (Z.compare_antisym ex ey);
    destruct (ex ?= ey); simpl; try reflexivity;
    rewrite (compare_cont_opp mx my);
    destruct (Pos.compare_cont Eq mx my); reflexivity.
Qed.

(** Two numbers, neither NaN, are comparable. *)
Lemma SFcompare_total (x y : Js.number) :
  Js.is_nan x = false -> Js.is_nan y = false ->
  exists c, SFcompare x y = Some c.
Proof.
  destruct x, y; simpl; intros; try discriminate; eauto.
Qed.

Lemma not_lt_le (x y : Js.number) :
  Js.is_nan x = false -> Js.is_nan y = false ->
  Js.lt y x = false -> Js.le x y = true.
Proof.
  intros Hx Hy. unfold Js.lt, Js.le, SFltb, SFleb.
  rewrite (SFcompare_opp x y).
  destruct (SFcompare_total x y Hx Hy) as [c ->].
  destruct c; simpl; congruence.
Qed.

Lemma lt_le (x y : Js.number) : Js.lt x y = true -> Js.le x y = true.
Proof.
  unfold Js.lt, Js.le, SFltb, SFleb.
  destruct (SFcompare x y) as [[ | | ] | ]; congruence.
Qed.

(** [Math.max(x, +0)] for a number [x]. *)
Lemma max_zero (x : Js.number) :
  Js.is_nan x = false ->
  Js.Math_max [x; Js.pos_zero] = if Js.lt Js.pos_zero x then x else Js.pos_zero.
Proof.
  destruct x as [[ | ] | [ | ] | | [ | ] m e]; simpl; intros; try discriminate;
    reflexivity.
Qed.

(** [Math.min(y, 100)] for a number [y]. *)
Lemma min_hundred (y : Js.number) :
  Js.is_nan y = false ->
  Js.Math_min [y; Js.num_100] = if Js.lt Js.num_100 y then Js.num_100 else y.
Proof.
  intros Hy. unfold Js.Math_min. cbn [Js.min_from]. rewrite Hy.
  assert (E : (if Js.lt y Js.pos_infinity then y else Js.pos_infinity) = y).
  { destruct y as [[ | ] | [ | ] | | [ | ] m e]; try discriminate; reflexivity. }
  replace (Js.is_neg_zero y && Js.is_pos_zero Js.pos_infinity) with false
    by (destruct (Js.is_neg_zero y); reflexivity).
  rewrite E. reflexivity.
Qed.

(** [Math.max] and [Math.min] at the edges: signed zeros and NaN. *)
Example max_of_zeros : Js.Math_max [Js.neg_zero; Js.pos_zero] = Js.pos_zero.
Proof. reflexivity. Qed.

Example max_of_nan : Js.Math_max [Js.NaN; Js.pos_zero] = Js.NaN.
Proof. reflexivity. Qed.

Example max_of_nothing : Js.Math_max [] = Js.neg_infinity.
Proof. reflexivity. Qed.

Example min_of_zeros : Js.Math_min [Js.pos_zero; Js.neg_zero] = Js.neg_zero.
Proof. reflexivity. Qed.

Example min_of_infinity :
  Js.Math_min [Js.pos_infinity; Js.num_100] = Js.num_100.
Proof. reflexivity. Qed.

(** [trim] strips both ends and keeps the inside. *)
Example trim_both_ends : Js.trim "  walk the dog  " = "walk the dog".
Proof. reflexivity. Qed.

Example trim_blank : Js.trim "   " = "".
Proof. reflexivity. Qed.

(** Reading a property back after writing it. *)
Lemma get_set_same (o : Js.object) (k : string) (v : Js.value) :
  Js.get (Js.set o k v) k = v.
Proof.
  induction o as [ | [k' v'] rest IH]; simpl.
  - rewrite String.eqb_refl. reflexivity.
  - destruct (String.eqb k' k) eqn:E; simpl; rewrite E; auto.
Qed.

(** Writing one property leaves every other property as it was. *)
Lemma get_set_other (o : Js.object) (k k' : string) (v : Js.value) :
  k' <> k -> Js.get (Js.set o k v) k' = Js.get o k'.
Proof.
  intros Hk. induction o as [ | [k0 v0] rest IH]; simpl.
  - destruct (String.eqb k k') eqn:E; [ | reflexivity].
    apply String.eqb_eq in E. congruence.
  - destruct (String.eqb k0 k) eqn:E; simpl.
    + destruct (String.eqb k0 k') eqn:E'; [ | reflexivity].
      apply String.eqb_eq in E, E'. congruence.
    + rewrite IH. reflexivity.
Qed.

End JsFacts.

(** ** The goal-progress handler *)

Module ProgressFacts.
Import Progress.

Section Runs.
Context {Db : Type} {store : GoalStore Db} {engine : Js.Engine}.


(** Any other method but PUT is refused before anything is called. *)
Lemma handler_other_method (req : request) (d : Db) :
  method req <> "OPTIONS" -> method req <> "PUT" ->
  handler req d = (d, [], inr (reply 405 not_allowed_body)).
Proof.
  intros Ho Hp. unfold handler.
  apply String.eqb_neq in Ho, Hp. rewrite Ho, Hp. reflexivity.
Qed.

(** A PUT whose lookup finds nothing is answered 404. *)
Lemma handler_not_found (req : request) (d d1 d2 : Db) :
  method req = "PUT" ->
  connectDB d = (d1, inr tt) ->
  findOne (owner_filter req) d1 = (d2, inr None) ->
  handler req d =
    (d2, [ConnectDB; FindOne (owner_filter req)], inr (reply 404 not_found_body)).
Proof.
  intros Hm Hc Hf. unfold handler. rewrite Hm. expose_run.
  rewrite Hc, Hf. reflexivity.
Qed.

(** A PUT that finds its goal and carries a body saves the updated
    document. *)
Lemma handler_saves (req : request) (d d2 : Db) (g : goal) :
  method req = "PUT" ->
  Finds req d d2 g ->
  Js.nullish (body req) = false ->
  Saves req d d2
    (update g (Js.property (body req) "currentValue")
              (Js.property (body req) "progress")).
Proof.
  intros Hm (d1 & Hc & Hf) Hb. unfold Saves.
  destruct (save _ d2) as [d3 r] eqn:Hs.
  unfold handler, destructure. rewrite Hm. expose_run.
  rewrite Hc, Hf, Hb. simpl. rewrite Hs.
  destruct r; reflexivity.
Qed.

(** A PUT that finds its goal but carries no body saves nothing. *)
Lemma handler_rejects_body (req : request) (d d2 : Db) (g : goal) :
  method req = "PUT" ->
  Finds req d d2 g ->
  Js.nullish (body req) = true ->
  Rejects_body req d d2.
Proof.
  intros Hm (d1 & Hc & Hf) Hb. unfold Rejects_body.
  unfold handler, destructure. rewrite Hm. expose_run.
  rewrite Hc, Hf, Hb. reflexivity.
Qed.

(** *** Clamping *)

(** [Math.min(Math.max(x, 0), 100)], spelled out for a number. *)
Lemma clamp_number (x : Js.number) :
  Js.is_nan x = false ->
  clamp (Js.Number x) =
    let m := if Js.lt Js.pos_zero x then x else Js.pos_zero in
    if Js.lt Js.num_100 m then Js.num_100 else m.
Proof.
  intros Hx. unfold clamp. simpl Js.ToNumber.
  rewrite (JsFacts.max_zero x Hx).
  apply JsFacts.min_hundred.
  destruct (Js.lt Js.pos_zero x); [assumption | reflexivity].
Qed.

Lemma clamp_bounds (x : Js.number) :
  Js.is_nan x = false ->
  Js.le Js.pos_zero (clamp (Js.Number x)) = true /\
  Js.le (clamp (Js.Number x)) Js.num_100 = true.
Proof.
  intros Hx. rewrite (clamp_number x Hx). cbv zeta.
  destruct (Js.lt Js.pos_zero x) eqn:E0.
  - destruct (Js.lt Js.num_100 x) eqn:E1.
    + split; reflexivity.
    + split.
      * apply JsFacts.lt_le; assumption.
      * apply JsFacts.not_lt_le; auto.
  - split; reflexivity.
Qed.

Lemma clamp_below (x : Js.number) :
  Js.lt x Js.pos_zero = true -> clamp (Js.Number x) = Js.pos_zero.
Proof.
  intros Hlt.
  assert (Hx : Js.is_nan x = false) by (destruct x; try reflexivity; discriminate).
  rewrite (clamp_number x Hx). cbv zeta.
  destruct x as [[ | ] | [ | ] | | [ | ] m e]; try discriminate; reflexivity.
Qed.

Lemma clamp_above (x : Js.number) :
  Js.lt Js.num_100 x = true -> clamp (Js.Number x) = Js.num_100.
Proof.
  intros Hlt.
  assert (Hx : Js.is_nan x = false) by (destruct x; try reflexivity; discriminate).
  rewrite (clamp_number x Hx). cbv zeta.
  assert (Hpos : Js.lt Js.pos_zero x = true).
  { destruct x as [[ | ] | [ | ] | | [ | ] m e]; try discriminate; reflexivity. }
  rewrite Hpos, Hlt. reflexivity.
Qed.

Lemma clamp_within (x : Js.number) :
  Js.le Js.pos_zero x = true -> Js.le x Js.num_100 = true ->
  clamp (Js.Number x) = x \/ (x = Js.neg_zero /\ clamp (Js.Number x) = Js.pos_zero).
Proof.
  intros Hlo Hhi.
  assert (Hx : Js.is_nan x = false) by (destruct x; try reflexivity; discriminate).
  rewrite (clamp_number x Hx). cbv zeta.
  assert (Hn : Js.lt Js.num_100 x = false).
  { revert Hhi. unfold Js.lt, Js.le, SFltb, SFleb.
    rewrite (JsFacts.SFcompare_opp x Js.num_100).
    destruct (SFcompare x Js.num_100) as [[ | | ] | ]; simpl; congruence. }
  destruct (Js.lt Js.pos_zero x) eqn:E0.
  - rewrite Hn. left; reflexivity.
  - destruct x as [[ | ] | [ | ] | | [ | ] m e]; try discriminate.
    + right. split; reflexivity.
    + left. reflexivity.
Qed.

(** NaN is not clamped: it goes through [Math.max] and [Math.min] as
    it is.  No JSON body carries it. *)
Lemma clamp_nan : clamp (Js.Number Js.NaN) = Js.NaN.
Proof. reflexivity. Qed.

(** [null] reads as 0. *)
Lemma clamp_null : clamp Js.Null = Js.pos_zero.
Proof. reflexivity. Qed.

(** A goal is of one type only. *)
Lemma milestone_not_tracked (g : goal) :
  is_milestone g = true -> tracks_value g = false.
Proof.
  unfold is_milestone, tracks_value, Js.is_string.
  destruct (Js.get g "type"); try discriminate.
  intros E. apply String.eqb_eq in E. subst. reflexivity.
Qed.

(** A body with a defined property is an object. *)
Lemma defined_property_body (b : Js.value) (k : string) :
  Js.is_defined (Js.property b k) = true -> Js.nullish b = false.
Proof.
  destruct b; simpl; intros; try discriminate; reflexivity.
Qed.

(** C1. For a goal of type milestone, a PUT supplying a number as
    [progress] hands to [save] the goal with [progress] overwritten by that
    number clamped to the range 0 to 100: below 0 it is 0, above 100 it is
    100, in between it is the number itself (with -0 read as +0).  In
    particular 150 is stored as exactly 100 and -20 as exactly 0. *)
Theorem milestone_progress_is_clamped
    (req : request) (d d2 : Db) (g : goal) (x : Js.number) :
  method req = "PUT" ->
  Finds req d d2 g ->
  is_milestone g = true ->
  Js.property (body req) "progress" = Js.Number x ->
  Js.is_nan x = false ->
  let stored := clamp (Js.Number x) in
    Saves req d d2 (Js.set g "progress" (Js.Number stored)) /\
    Js.get (Js.set g "progress" (Js.Number stored)) "progress" = Js.Number stored /\
    Js.le Js.pos_zero stored = true /\
    Js.le stored Js.num_100 = true /\
    (Js.lt x Js.pos_zero = true -> stored = Js.pos_zero) /\
    (Js.lt Js.num_100 x = true -> stored = Js.num_100) /\
    (Js.le Js.pos_zero x = true -> Js.le x Js.num_100 = true ->
       stored = x \/ (x = Js.neg_zero /\ stored = Js.pos_zero)) /\
    (x = Js.num_150 -> stored = Js.num_100) /\
    (x = Js.num_neg20 -> stored = Js.pos_zero).
Proof.
  intros Hm Hf Ht Hp Hx stored. subst stored.
  assert (Hb : Js.nullish (body req) = false).
  { apply (defined_property_body _ "progress"). rewrite Hp. reflexivity. }
  pose proof (handler_saves req d d2 g Hm Hf Hb) as Hs.
  unfold update in Hs.
  rewrite (milestone_not_tracked g Ht), Ht, Hp in Hs. simpl Js.is_defined in Hs.
  destruct (clamp_bounds x Hx) as [Hlo Hhi].
  repeat split; auto.
  - apply JsFacts.get_set_same.
  - apply clamp_below.
  - apply clamp_above.
  - apply clamp_within.
  - intros ->. apply clamp_above. reflexivity.
  - intros ->. apply clamp_below. reflexivity.
Qed.

(** *** The update rule *)

Lemma update_tracked (g : goal) (cv p : Js.value) :
  tracks_value g = true ->
  update g cv p = if Js.is_defined cv then Js.set g "currentValue" cv else g.
Proof. intros Ht. unfold update. rewrite Ht. reflexivity. Qed.

Lemma update_milestone (g : goal) (cv p : Js.value) :
  is_milestone g = true ->
  update g cv p =
    if Js.is_defined p then Js.set g "progress" (Js.Number (clamp p)) else g.
Proof.
  intros Ht. unfold update.
  rewrite (milestone_not_tracked g Ht), Ht. reflexivity.
Qed.

Lemma update_other (g : goal) (cv p : Js.value) :
  tracks_value g = false -> is_milestone g = false -> update g cv p = g.
Proof. intros Ht Hm. unfold update. rewrite Ht, Hm. reflexivity. Qed.

(** The rule for numeric and habit goals leaves every property but
    [currentValue] as it was. *)
Lemma update_tracked_frame (g : goal) (cv p : Js.value) (k : string) :
  tracks_value g = true -> k <> "currentValue" ->
  Js.get (update g cv p) k = Js.get g k.
Proof.
  intros Ht Hk. rewrite (update_tracked g cv p Ht).
  destruct (Js.is_defined cv); [apply JsFacts.get_set_other; assumption | reflexivity].
Qed.

(** The rule for milestone goals leaves every property but [progress] as
    it was. *)
Lemma update_milestone_frame (g : goal) (cv p : Js.value) (k : string) :
  is_milestone g = true -> k <> "progress" ->
  Js.get (update g cv p) k = Js.get g k.
Proof.
  intros Ht Hk. rewrite (update_milestone g cv p Ht).
  destruct (Js.is_defined p); [apply JsFacts.get_set_other; assumption | reflexivity].
Qed.

(** C3. For a goal of type numeric or habit, a PUT supplying
    [currentValue] hands to [save] the goal with [currentValue] overwritten
    by the supplied value and every other property, [progress] included,
    as found (recomputing [progress] is left to [save]); a PUT omitting
    [currentValue] hands the goal to [save] as found, or saves nothing at
    all when it has no body. *)
Theorem tracked_value_is_overwritten
    (req : request) (d d2 : Db) (g : goal) :
  method req = "PUT" ->
  Finds req d d2 g ->
  tracks_value g = true ->
  (Js.is_defined (Js.property (body req) "currentValue") = true ->
     Saves req d d2 (Js.set g "currentValue" (Js.property (body req) "currentValue")) /\
     Js.get (Js.set g "currentValue" (Js.property (body req) "currentValue"))
            "currentValue"
       = Js.property (body req) "currentValue" /\
     (forall k, k <> "currentValue" ->
        Js.get (Js.set g "currentValue" (Js.property (body req) "currentValue")) k
          = Js.get g k)) /\
  (Js.is_defined (Js.property (body req) "currentValue") = false ->
     if Js.nullish (body req) then Rejects_body req d d2 else Saves req d d2 g).
Proof.
  intros Hm Hf Ht. split.
  - intros Hd.
    pose proof (handler_saves req d d2 g Hm Hf (defined_property_body _ _ Hd)) as Hs.
    rewrite (update_tracked g _ _ Ht), Hd in Hs.
    repeat split.
    + exact Hs.
    + apply JsFacts.get_set_same.
    + intros k Hk. apply JsFacts.get_set_other; assumption.
  - intros Hd. destruct (Js.nullish (body req)) eqn:Hb.
    + apply (handler_rejects_body req d d2 g); assumption.
    + pose proof (handler_saves req d d2 g Hm Hf Hb) as Hs.
      rewrite (update_tracked g _ _ Ht), Hd in Hs. exact Hs.
Qed.

(** C6, as the code has it.  On a PUT that finds its goal and carries a
    body, a missing field is ignored: when [currentValue] is absent for a
    numeric or habit goal, or [progress] is absent for a milestone goal,
    the goal is handed to [save] exactly as found, and the answer is the
    200 success response once [save] succeeds. *)
Theorem missing_field_is_ignored
    (req : request) (d d2 : Db) (g : goal) :
  method req = "PUT" ->
  Finds req d d2 g ->
  Js.nullish (body req) = false ->
  (tracks_value g = true ->
   Js.property (body req) "currentValue" = Js.Undefined ->
   Saves req d d2 g) /\
  (is_milestone g = true ->
   Js.property (body req) "progress" = Js.Undefined ->
   Saves req d d2 g).
Proof.
  intros Hm Hf Hb.
  pose proof (handler_saves req d d2 g Hm Hf Hb) as Hs.
  split; intros Ht Hp.
  - rewrite (update_tracked g _ _ Ht), Hp in Hs. exact Hs.
  - rewrite (update_milestone g _ _ Ht), Hp in Hs. exact Hs.
Qed.

(** C7. Whatever the body holds, the document handed to [save] differs
    from the goal found in at most one property, chosen by the goal's
    type.  For a numeric or habit goal it is the goal found, or the goal
    found with [currentValue] set to the supplied value: the supplied
    [progress] plays no part and the [progress] property is as found.  For
    a milestone goal it is the goal found, or the goal found with
    [progress] set to the clamped supplied value: the supplied
    [currentValue] plays no part and the [currentValue] property is as
    found.  Nothing is saved when the request has no body. *)
Theorem update_writes_one_field
    (req : request) (d d2 : Db) (g : goal) :
  method req = "PUT" ->
  Finds req d d2 g ->
  if Js.nullish (body req) then Rejects_body req d d2
  else
    exists g' : goal,
      Saves req d d2 g' /\
      (tracks_value g = true ->
         g' = (if Js.is_defined (Js.property (body req) "currentValue")
               then Js.set g "currentValue" (Js.property (body req) "currentValue")
               else g) /\
         Js.get g' "progress" = Js.get g "progress" /\
         (forall k, k <> "currentValue" -> Js.get g' k = Js.get g k)) /\
      (is_milestone g = true ->
         g' = (if Js.is_defined (Js.property (body req) "progress")
               then Js.set g "progress"
                      (Js.Number (clamp (Js.property (body req) "progress")))
               else g) /\
         Js.get g' "currentValue" = Js.get g "currentValue" /\
         (forall k, k <> "progress" -> Js.get g' k = Js.get g k)).
Proof.
  intros Hm Hf. destruct (Js.nullish (body req)) eqn:Hb.
  - apply (handler_rejects_body req d d2 g); assumption.
  - eexists. split; [apply (handler_saves req d d2 g Hm Hf Hb) | ].
    split; intros Ht.
    + split; [apply update_tracked; assumption | ].
      split; [apply update_tracked_frame; [assumption | discriminate] | ].
      intros k Hk. apply update_tracked_frame; assumption.
    + split; [apply update_milestone; assumption | ].
      split; [apply update_milestone_frame; [assumption | discriminate] | ].
      intros k Hk. apply update_milestone_frame; assumption.
Qed.

(** C10, as the code has it.  On a PUT that carries a body and finds a
    goal whose type is none of numeric, habit and milestone, the handler
    writes no property: it hands the goal to [save] exactly as found and
    answers the 200 success response with the goal as [save] leaves
    it. *)
Theorem unknown_type_is_saved_untouched
    (req : request) (d d2 : Db) (g : goal) :
  method req = "PUT" ->
  Finds req d d2 g ->
  Js.nullish (body req) = false ->
  tracks_value g = false ->
  is_milestone g = false ->
  Saves req d d2 g.
Proof.
  intros Hm Hf Hb Ht Hs.
  pose proof (handler_saves req d d2 g Hm Hf Hb) as Hsave.
  rewrite (update_other g _ _ Ht Hs) in Hsave. exact Hsave.
Qed.

(** C4, as the code has it.  A request whose method is neither PUT nor
    OPTIONS is answered 405 with the body [{ error: 'Method not allowed' }]
    whatever its body holds, and nothing is called. *)
Theorem other_methods_not_allowed (req : request) (d : Db) :
  method req <> "PUT" ->
  method req <> "OPTIONS" ->
  exists res : response,
    handler req d = (d, [], inr res) /\
    status res = 405 /\
    sent res = Some (Js.Object [("error", Js.String "Method not allowed")]).
Proof.
  intros Hp Ho. eexists. split.
  - apply handler_other_method; assumption.
  - split; reflexivity.
Qed.

End Runs.

(** *** Behind the authentication middleware *)

Section Gate.
Context {Db : Type} {store : GoalStore Db} {engine : Js.Engine}
        {policy : AuthPolicy}.


End Gate.

End ProgressFacts.

(** ** The handler on the reference store *)

Module MemoryFacts.
Import Progress Memory.

Lemma find_nothing {A} (f : A -> bool) (l : list A) :
  (forall x, In x l -> f x = false) -> find f l = None.
Proof.
  induction l as [ | a l IH]; simpl; intros Hall; [reflexivity | ].
  rewrite (Hall a (or_introl eq_refl)). apply IH.
  intros x Hx. apply Hall. right. exact Hx.
Qed.

(** The owner-scoped lookup does not find a goal of another user. *)
Lemma lookup_owned_by_other (d : db) (q : filter) :
  owned_by_other d (_id q) (userId q) -> find (matches q) d = None.
Proof.
  intros [_ Hother]. apply find_nothing. intros g Hg. unfold matches.
  destruct (same_string (Js.get g "_id") (_id q)) eqn:E; [ | reflexivity].
  rewrite (Hother g Hg E). reflexivity.
Qed.

(** Nor a goal that does not exist. *)
Lemma lookup_no_such_goal (d : db) (q : filter) :
  no_such_goal d (_id q) -> find (matches q) d = None.
Proof.
  intros Hnone. apply find_nothing. intros g Hg. unfold matches.
  rewrite (Hnone g Hg). reflexivity.
Qed.

Section OnStore.
Variable derived : goal -> Js.value.
Context {engine : Js.Engine}.

#[local] Existing Instance store.

(** C2. A PUT for an id that belongs to a goal of another user and a PUT
    for an id that matches no goal get the same response: status 404 with
    exactly the body [{ error: 'Goal not found' }]; the database is left
    as it was. *)
Theorem not_owned_looks_missing (req1 req2 : request) (d1 d2 : db) :
  method req1 = "PUT" ->
  method req2 = "PUT" ->
  owned_by_other d1 (Js.get (query req1) "id") (req_userId req1) ->
  no_such_goal d2 (Js.get (query req2) "id") ->
  exists res1 res2 : response,
    handler (store := store derived) req1 d1
      = (d1, [ConnectDB; FindOne (owner_filter req1)], inr res1) /\
    handler (store := store derived) req2 d2
      = (d2, [ConnectDB; FindOne (owner_filter req2)], inr res2) /\
    res1 = res2 /\
    status res1 = 404 /\
    sent res1 = Some (Js.Object [("error", Js.String "Goal not found")]).
Proof.
  intros Hm1 Hm2 Hother Hnone.
  exists (reply 404 not_found_body), (reply 404 not_found_body).
  split; [ | split; [ | repeat split]].
  - apply (ProgressFacts.handler_not_found req1 d1 d1 d1 Hm1); [reflexivity | ].
    simpl. rewrite (lookup_owned_by_other d1 (owner_filter req1) Hother). reflexivity.
  - apply (ProgressFacts.handler_not_found req2 d2 d2 d2 Hm2); [reflexivity | ].
    simpl. rewrite (lookup_no_such_goal d2 (owner_filter req2) Hnone). reflexivity.
Qed.

End OnStore.

End MemoryFacts.

(** ** The schedule screen *)

Module ScheduleFacts.
Import Schedule.

Section Runs.
Context {W : Type} {svc : ScheduleService W} {engine : Js.Engine}.

(** A title that is blank once trimmed stops [addTask] at the alert. *)
Lemma addTask_blank (w : W) (st : state) :
  Js.trim (NewTask.title (newTask st)) = "" ->
  addTask st (w, st) = ((w, st), [Alert "Error" "Please enter a task title"], inr tt).
Proof.
  intros Hb. unfold addTask. rewrite Hb. reflexivity.
Qed.

(** C8. With an empty title, [addTask] only raises the validation alert:
    no request is made, nothing else is called, and the component state,
    with its block list, schedule id and form, and the service are left
    as they were. *)
Theorem empty_title_is_refused (w : W) (st : state) :
  NewTask.title (newTask st) = "" ->
  exists trace : list event,
    addTask st (w, st) = ((w, st), trace, inr tt) /\
    trace = [Alert "Error" "Please enter a task title"] /\
    existsb is_request trace = false.
Proof.
  intros Ht. eexists. split; [ | split; reflexivity].
  apply addTask_blank. rewrite Ht. reflexivity.
Qed.

(** C9. A fetch (made for a signed-in user) always ends with [loading]
    and [refreshing] cleared.  When the request resolves to a schedule,
    the block list becomes the blocks of the response (none when it has
    none) and the schedule id becomes its id (empty when it has none), and
    no alert is raised.  When the request rejects, resolves to nothing, or
    the date cannot be formatted, the alert 'Failed to load schedule' is
    raised and the block list and schedule id stay as they were. *)
Theorem fetch_replaces_or_keeps (u : Js.object) (w : W) (st : state) :
  (forall w1 w2 dateStr data,
     formatDateForAPI (selectedDate st) w = (w1, inr dateStr) ->
     getSchedule dateStr w1 = (w2, inr (Some data)) ->
     exists st' : state,
       fetchSchedule (Some u) st (w, st)
         = ((w2, st'),
            [FormatDateForAPI (selectedDate st); GetSchedule dateStr],
            inr tt) /\
       st' = settled (showing (or_else (Fetched.blocks data) [])
                              (id_or_empty (Fetched._id data)) st) /\
       (forall blocks, Fetched.blocks data = Some blocks -> schedule st' = blocks) /\
       (forall id, Fetched._id data = Some id -> id <> "" -> scheduleId st' = id) /\
       loading st' = false /\ refreshing st' = false) /\
  (forall w1 w2 dateStr e,
     formatDateForAPI (selectedDate st) w = (w1, inr dateStr) ->
     getSchedule dateStr w1 = (w2, inl e) ->
     exists st' : state,
       fetchSchedule (Some u) st (w, st)
         = ((w2, st'),
            [FormatDateForAPI (selectedDate st); GetSchedule dateStr]
              ++ load_failure e,
            inr tt) /\
       st' = settled st /\
       schedule st' = schedule st /\ scheduleId st' = scheduleId st /\
       loading st' = false /\ refreshing st' = false) /\
  (forall w1 w2 dateStr,
     formatDateForAPI (selectedDate st) w = (w1, inr dateStr) ->
     getSchedule dateStr w1 = (w2, inr None) ->
     exists (st' : state) (e : Eff.exn),
       fetchSchedule (Some u) st (w, st)
         = ((w2, st'),
            [FormatDateForAPI (selectedDate st); GetSchedule dateStr]
              ++ load_failure e,
            inr tt) /\
       st' = settled st /\
       schedule st' = schedule st /\ scheduleId st' = scheduleId st /\
       loading st' = false /\ refreshing st' = false) /\
  (forall w1 e,
     formatDateForAPI (selectedDate st) w = (w1, inl e) ->
     exists st' : state,
       fetchSchedule (Some u) st (w, st)
         = ((w1, st'),
            [FormatDateForAPI (selectedDate st)] ++ load_failure e,
            inr tt) /\
       st' = settled st /\
       schedule st' = schedule st /\ scheduleId st' = scheduleId st /\
       loading st' = false /\ refreshing st' = false).
Proof.
  split; [ | split; [ | split]].
  - intros w1 w2 dateStr data Hf Hg. eexists. split.
    + unfold fetchSchedule, service. expose_run. rewrite Hf. simpl. rewrite Hg. reflexivity.
    + split; [reflexivity | ]. split; [ | split; [ | split; reflexivity]].
      * intros blocks Hb. simpl. rewrite Hb. reflexivity.
      * intros id Hi Hne. simpl. rewrite Hi.
        destruct id; [congruence | reflexivity].
  - intros w1 w2 dateStr e Hf Hg. eexists. split.
    + unfold fetchSchedule, service. expose_run. rewrite Hf. simpl. rewrite Hg. reflexivity.
    + repeat split.
  - intros w1 w2 dateStr Hf Hg. eexists. eexists. split.
    + unfold fetchSchedule, service. expose_run. rewrite Hf. simpl. rewrite Hg. reflexivity.
    + repeat split.
  - intros w1 e Hf. eexists. split.
    + unfold fetchSchedule, service. expose_run. rewrite Hf. reflexivity.
    + repeat split.
Qed.

End Runs.

End ScheduleFacts.

(** ** Concrete runs of the handler *)

Module ProgressRuns.
Import Progress Memory.

#[local] Existing Instance engine.
#[local] Existing Instance policy.

#[local] Existing Instance sample_store.

(** Every sample lookup of user [u1] runs on [sample_db] and leaves it
    as it is. *)
Lemma sample_finds (m id : string) (b : Js.value) (g : goal) :
  find (matches (owner_filter (request_of m id b))) sample_db = Some g ->
  Finds (request_of m id b) sample_db sample_db g.
Proof.
  intros Hf. exists sample_db. split; [reflexivity | ].
  simpl. simpl in Hf. rewrite Hf. reflexivity.
Qed.

(** Submitting 150 for the milestone goal [g1] leaves it in the database
    with a progress of 100, and the other documents as they were. *)
Example submitting_150_stores_100 :
  fst (fst (handler (request_of "PUT" "g1"
                       (Js.Object [("progress", Js.Number Js.num_150)]))
                    sample_db))
    = [Js.set milestone_goal "progress" (Js.Number Js.num_100);
       numeric_goal; foreign_goal; untyped_goal].
Proof. reflexivity. Qed.

(** Submitting -20 leaves it with a progress of 0. *)
Example submitting_minus_20_stores_0 :
  fst (fst (handler (request_of "PUT" "g1"
                       (Js.Object [("progress", Js.Number Js.num_neg20)]))
                    sample_db))
    = [Js.set milestone_goal "progress" (Js.Number Js.pos_zero);
       numeric_goal; foreign_goal; untyped_goal].
Proof. reflexivity. Qed.

(** Submitting 150 for the milestone goal [g1] saves exactly 100. *)
Lemma milestone_progress_is_clamped_witness :
  Saves (request_of "PUT" "g1" (Js.Object [("progress", Js.Number Js.num_150)]))
        sample_db sample_db
        (Js.set milestone_goal "progress" (Js.Number (clamp (Js.Number Js.num_150)))) /\
  clamp (Js.Number Js.num_150) = Js.num_100.
Proof.
  destruct (ProgressFacts.milestone_progress_is_clamped
              (request_of "PUT" "g1" (Js.Object [("progress", Js.Number Js.num_150)]))
              sample_db sample_db milestone_goal Js.num_150)
    as (Hs & _ & _ & _ & _ & _ & _ & H150 & _).
  - reflexivity.
  - apply sample_finds. reflexivity.
  - reflexivity.
  - reflexivity.
  - reflexivity.
  - split; [exact Hs | apply H150; reflexivity].
Defined.

(** Asking for [g3], a goal of user [u2], looks to user [u1] like asking
    for [g0], which does not exist. *)
Lemma not_owned_looks_missing_witness :
  exists res1 res2 : response,
    handler (request_of "PUT" "g3" (Js.Object [])) sample_db
      = (sample_db,
         [ConnectDB; FindOne (owner_filter (request_of "PUT" "g3" (Js.Object [])))],
         inr res1) /\
    handler (request_of "PUT" "g0" (Js.Object [])) sample_db
      = (sample_db,
         [ConnectDB; FindOne (owner_filter (request_of "PUT" "g0" (Js.Object [])))],
         inr res2) /\
    res1 = res2 /\
    status res1 = 404 /\
    sent res1 = Some (Js.Object [("error", Js.String "Goal not found")]).
Proof.
  apply (MemoryFacts.not_owned_looks_missing mirror
           (request_of "PUT" "g3" (Js.Object []))
           (request_of "PUT" "g0" (Js.Object []))
           sample_db sample_db).
  - reflexivity.
  - reflexivity.
  - split.
    + exists foreign_goal. split; [simpl; tauto | reflexivity].
    + intros g Hg Hid. simpl in Hg.
      destruct Hg as [<- | [<- | [<- | [<- | []]]]];
        solve [reflexivity | discriminate Hid].
  - intros g Hg. simpl in Hg.
    destruct Hg as [<- | [<- | [<- | [<- | []]]]]; reflexivity.
Defined.

(** Submitting a current value of 50 for the numeric goal [g2] saves it
    with that value. *)
Lemma tracked_value_is_overwritten_witness :
  Saves (request_of "PUT" "g2" (Js.Object [("currentValue", Js.Number Js.num_50)]))
        sample_db sample_db
        (Js.set numeric_goal "currentValue" (Js.Number Js.num_50)).
Proof.
  destruct (ProgressFacts.tracked_value_is_overwritten
              (request_of "PUT" "g2" (Js.Object [("currentValue", Js.Number Js.num_50)]))
              sample_db sample_db numeric_goal)
    as [Hsupplied _].
  - reflexivity.
  - apply sample_finds. reflexivity.
  - reflexivity.
  - destruct Hsupplied as (Hs & _ & _); [reflexivity | exact Hs].
Defined.

(** An empty body for the milestone goal [g1] saves it as found. *)
Lemma missing_field_is_ignored_witness :
  Saves (request_of "PUT" "g1" (Js.Object [])) sample_db sample_db milestone_goal.
Proof.
  destruct (ProgressFacts.missing_field_is_ignored
              (request_of "PUT" "g1" (Js.Object []))
              sample_db sample_db milestone_goal)
    as [_ Hmilestone].
  - reflexivity.
  - apply sample_finds. reflexivity.
  - reflexivity.
  - apply Hmilestone; reflexivity.
Defined.

(** A body with both fields for the numeric goal [g2]: only
    [currentValue] is written. *)
Lemma update_writes_one_field_witness :
  exists g' : goal,
    Saves (request_of "PUT" "g2"
             (Js.Object [("currentValue", Js.Number Js.num_50);
                         ("progress", Js.Number Js.num_100)]))
          sample_db sample_db g' /\
    Js.get g' "progress" = Js.get numeric_goal "progress".
Proof.
  pose proof (ProgressFacts.update_writes_one_field
                (request_of "PUT" "g2"
                   (Js.Object [("currentValue", Js.Number Js.num_50);
                               ("progress", Js.Number Js.num_100)]))
                sample_db sample_db numeric_goal eq_refl
                (sample_finds "PUT" "g2" _ numeric_goal eq_refl)) as Hw.
  simpl Js.nullish in Hw. cbv iota in Hw.
  destruct Hw as (g' & Hs & Htracked & _).
  exists g'. split; [exact Hs | ].
  destruct (Htracked eq_refl) as (_ & Hp & _). exact Hp.
Defined.

(** A body for [g4], whose type is 'checklist', saves it as found. *)
Lemma unknown_type_is_saved_untouched_witness :
  Saves (request_of "PUT" "g4" (Js.Object [("progress", Js.Number Js.num_100)]))
        sample_db sample_db untyped_goal.
Proof.
  apply ProgressFacts.unknown_type_is_saved_untouched.
  - reflexivity.
  - apply sample_finds. reflexivity.
  - reflexivity.
  - reflexivity.
  - reflexivity.
Defined.

(** A DELETE is answered 405. *)
Lemma other_methods_not_allowed_witness :
  exists res : response,
    handler (request_of "DELETE" "g1" Js.Undefined) sample_db
      = (sample_db, [], inr res) /\
    status res = 405 /\
    sent res = Some (Js.Object [("error", Js.String "Method not allowed")]).
Proof.
  apply ProgressFacts.other_methods_not_allowed; discriminate.
Defined.


(** C4 fails for OPTIONS: a method other than PUT that is answered 200
    with no body, not 405. *)
Lemma options_is_not_refused :
  method (request_of "OPTIONS" "g1" (Js.Object [])) <> "PUT" /\
  exists res : response,
    handler (request_of "OPTIONS" "g1" (Js.Object [])) sample_db
      = (sample_db, [], inr res) /\
    status res = 200 /\ status res <> 405 /\ sent res = None.
Proof.
  split; [discriminate | ].
  eexists. split; [reflexivity | ].
  repeat split. discriminate.
Qed.

(** C6 fails twice.  A [progress] of [null] for the milestone goal [g1],
    whose progress is 50, is not ignored: the goal is saved with progress
    0.  And a request with no body is not answered 200: nothing is saved
    and the answer is 500. *)
Lemma invalid_field_and_missing_body_are_not_ignored :
  Js.get milestone_goal "progress" = Js.Number Js.num_50 /\
  Saves (request_of "PUT" "g1" (Js.Object [("progress", Js.Null)]))
        sample_db sample_db
        (Js.set milestone_goal "progress" (Js.Number Js.pos_zero)) /\
  Js.set milestone_goal "progress" (Js.Number Js.pos_zero) <> milestone_goal /\
  exists res : response,
    handler (request_of "PUT" "g1" Js.Undefined) sample_db
      = (sample_db,
         [ConnectDB;
          FindOne (owner_filter (request_of "PUT" "g1" Js.Undefined));
          ConsoleError "Progress update error:"
            (Eff.Error (Js.String "Cannot read property currentValue"))],
         inr res) /\
    status res = 500 /\ status res <> 200.
Proof.
  split; [reflexivity | ].
  split; [reflexivity | ].
  split; [discriminate | ].
  eexists. split; [reflexivity | ].
  split; [reflexivity | discriminate].
Qed.

(** C10 fails without a body: for [g4], whose type is unknown, nothing is
    saved and the answer is 500. *)
Lemma unknown_type_without_body_is_not_saved :
  tracks_value untyped_goal = false /\
  is_milestone untyped_goal = false /\
  Finds (request_of "PUT" "g4" Js.Undefined) sample_db sample_db untyped_goal /\
  exists res : response,
    handler (request_of "PUT" "g4" Js.Undefined) sample_db
      = (sample_db,
         [ConnectDB;
          FindOne (owner_filter (request_of "PUT" "g4" Js.Undefined));
          ConsoleError "Progress update error:"
            (Eff.Error (Js.String "Cannot read property currentValue"))],
         inr res) /\
    status res = 500 /\ status res <> 200.
Proof.
  split; [reflexivity | ].
  split; [reflexivity | ].
  split; [apply sample_finds; reflexivity | ].
  eexists. split; [reflexivity | ].
  split; [reflexivity | discriminate].
Qed.

End ProgressRuns.

(** ** Concrete runs of the schedule screen *)

Module ScheduleRuns.
Import Schedule Schedule.Demo.

#[local] Existing Instance Memory.engine.
#[local] Existing Instance Demo.service.

(** With the form still empty, [addTask] only alerts. *)
Lemma empty_title_is_refused_witness :
  exists trace : list event,
    addTask screen (up, screen) = ((up, screen), trace, inr tt) /\
    trace = [Alert "Error" "Please enter a task title"] /\
    existsb is_request trace = false.
Proof.
  apply (ScheduleFacts.empty_title_is_refused up screen). reflexivity.
Defined.

(** Fetching day 0 while the service is up shows its two blocks under
    schedule id [s0]; fetching while it is down keeps the block shown. *)
Lemma fetch_replaces_or_keeps_witness :
  (exists st' : state,
     fetchSchedule (Some []) screen (up, screen)
       = ((up, st'), [FormatDateForAPI 0; GetSchedule "1970-01-01"], inr tt) /\
     schedule st' = [walk; read] /\ scheduleId st' = "s0" /\
     loading st' = false /\ refreshing st' = false) /\
  (exists st' : state,
     fetchSchedule (Some []) screen (down, screen)
       = ((down, st'),
          [FormatDateForAPI 0; GetSchedule "1970-01-01"]
            ++ load_failure offline_error,
          inr tt) /\
     schedule st' = [read] /\ scheduleId st' = "s7" /\
     loading st' = false /\ refreshing st' = false).
Proof.
  split.
  - destruct (ScheduleFacts.fetch_replaces_or_keeps [] up screen) as [Hok _].
    destruct (Hok up up "1970-01-01"
                (Fetched.Make (Some [walk; read]) (Some "s0"))
                eq_refl eq_refl)
      as (st' & Hrun & _ & Hb & Hi & Hl & Hr).
    exists st'. split; [exact Hrun | ].
    split; [apply Hb; reflexivity | ].
    split; [apply Hi; [reflexivity | discriminate] | ].
    split; assumption.
  - destruct (ScheduleFacts.fetch_replaces_or_keeps [] down screen) as [_ [Hko _]].
    destruct (Hko down down "1970-01-01" offline_error eq_refl eq_refl)
      as (st' & Hrun & _ & Hb & Hi & Hl & Hr).
    exists st'. split; [exact Hrun | ].
    split; [rewrite Hb; reflexivity | ].
    split; [rewrite Hi; reflexivity | ].
    split; assumption.
Defined.

End ScheduleRuns.

(** ** More on the handler: what it always and never does *)

Module HandlerFacts.
Import Progress Trace.

(** Comparing by exponent, then mantissa. *)
Lemma lex_lt (e1 e2 : Z) (m1 m2 : positive) :
  match e1 ?= e2 with
  | Lt => Lt
  | Gt => Gt
  | Eq => Pos.compare_cont Eq m1 m2
  end = Lt <-> e1 < e2 \/ (e1 = e2 /\ (m1 < m2)%positive).
Proof.
  change (Pos.compare_cont Eq m1 m2) with (Pos.compare m1 m2).
  destruct (Z.compare_spec e1 e2); destruct (Pos.compare_spec m1 m2);
    split; intros; try discriminate; try reflexivity; lia.
Qed.

Lemma lex_opp_lt (e1 e2 : Z) (m1 m2 : positive) :
  match e1 ?= e2 with
  | Lt => Gt
  | Gt => Lt
  | Eq => CompOpp (Pos.compare_cont Eq m1 m2)
  end = Lt <-> e2 < e1 \/ (e1 = e2 /\ (m2 < m1)%positive).
Proof.
  change (Pos.compare_cont Eq m1 m2) with (Pos.compare m1 m2).
  destruct (Z.compare_spec e1 e2); destruct (Pos.compare_spec m1 m2);
    simpl; split; intros; try discriminate; try reflexivity; lia.
Qed.

Lemma lex_eq (e1 e2 : Z) (m1 m2 : positive) :
  match e1 ?= e2 with
  | Lt => Lt
  | Gt => Gt
  | Eq => Pos.compare_cont Eq m1 m2
  end = Eq <-> e1 = e2 /\ m1 = m2.
Proof.
  change (Pos.compare_cont Eq m1 m2) with (Pos.compare m1 m2).
  destruct (Z.compare_spec e1 e2); destruct (Pos.compare_spec m1 m2);
    split; intros; try discriminate; try reflexivity; try (split; lia); lia.
Qed.

Lemma lex_opp_eq (e1 e2 : Z) (m1 m2 : positive) :
  match e1 ?= e2 with
  | Lt => Gt
  | Gt => Lt
  | Eq => CompOpp (Pos.compare_cont Eq m1 m2)
  end = Eq <-> e1 = e2 /\ m1 = m2.
Proof.
  change (Pos.compare_cont Eq m1 m2) with (Pos.compare m1 m2).
  destruct (Z.compare_spec e1 e2); destruct (Pos.compare_spec m1 m2);
    simpl; split; intros; try discriminate; try reflexivity; try (split; lia); lia.
Qed.

(** The order of numbers, read off [SFcompare]. *)
Lemma lt_spec (x y : Js.number) :
  Js.lt x y = true <-> SFcompare x y = Some Lt.
Proof.
  unfold Js.lt, SFltb. destruct (SFcompare x y) as [[ | | ] | ];
    split; congruence.
Qed.

Lemma le_spec (x y : Js.number) :
  Js.le x y = true <-> SFcompare x y = Some Lt \/ SFcompare x y = Some Eq.
Proof.
  unfold Js.le, SFleb. destruct (SFcompare x y) as [[ | | ] | ];
    split; intros; try tauto; try congruence; try (destruct H; congruence).
Qed.

(** Below something that is at most [z] is below [z]. *)
Lemma lt_le_trans (x y z : Js.number) :
  Js.lt x y = true -> Js.le y z = true -> Js.lt x z = true.
Proof.
  rewrite !lt_spec, le_spec.
  destruct x as [sx | sx | | sx mx ex], y as [sy | sy | | sy my ey],
           z as [sz | sz | | sz mz ez];
    simpl; intros Hxy Hyz;
    try discriminate; try (destruct Hyz; discriminate);
    try reflexivity;
    try (destruct sx; destruct sy; destruct sz; simpl in *;
         first [ discriminate | destruct Hyz; discriminate | reflexivity ]).
  destruct sx, sy, sz; simpl in *;
    try discriminate; try (destruct Hyz; discriminate); try reflexivity.
  - injection Hxy as Hxy. apply lex_opp_lt in Hxy. f_equal. apply lex_opp_lt.
    destruct Hyz as [Hyz | Hyz]; injection Hyz as Hyz.
    + apply lex_opp_lt in Hyz. lia.
    + apply lex_opp_eq in Hyz. lia.
  - injection Hxy as Hxy. apply lex_lt in Hxy. f_equal. apply lex_lt.
    destruct Hyz as [Hyz | Hyz]; injection Hyz as Hyz.
    + apply lex_lt in Hyz. lia.
    + apply lex_eq in Hyz. lia.
Qed.

(** Writing a property twice leaves the second value. *)
Lemma set_set (o : Js.object) (k : string) (v v' : Js.value) :
  Js.set (Js.set o k v) k v' = Js.set o k v'.
Proof.
  induction o as [ | [k0 v0] rest IH]; simpl.
  - rewrite String.eqb_refl. reflexivity.
  - destruct (String.eqb k0 k) eqn:E; simpl; rewrite E; [reflexivity | ].
    rewrite IH. reflexivity.
Qed.

Section Runs.
Context {Db : Type} {store : GoalStore Db} {engine : Js.Engine}.

(** The update rule does not change what type a goal is of. *)
Lemma update_keeps_type (g : goal) (cv p : Js.value) :
  Js.get (update g cv p) "type" = Js.get g "type".
Proof.
  unfold update.
  destruct (tracks_value g);
    [destruct (Js.is_defined cv) | destruct (is_milestone g);
                                    [destruct (Js.is_defined p) | ]];
    try reflexivity; apply JsFacts.get_set_other; discriminate.
Qed.

Lemma update_keeps_tracks (g : goal) (cv p : Js.value) :
  tracks_value (update g cv p) = tracks_value g.
Proof. unfold tracks_value. rewrite update_keeps_type. reflexivity. Qed.

Lemma update_keeps_milestone (g : goal) (cv p : Js.value) :
  is_milestone (update g cv p) = is_milestone g.
Proof. unfold is_milestone. rewrite update_keeps_type. reflexivity. Qed.

(** X1. For a request whose [query] is an object, and collaborators
    that return or throw an error whose [message] can be read, the handler
    ends with a response and never with an exception, whatever the
    method, the body and the outcome of each call; the status is one of
    200, 404, 405 and 500, and the response carries the four CORS
    headers.  (Reading [req.query] and reading [error.message] are the two
    steps of the handler that sit outside its [try]; requests without a
    query object and thrown values without properties are outside the
    types of [request] and [Eff.exn].) *)
Theorem handler_always_answers (req : request) (d : Db) :
  exists (d' : Db) (trace : list event) (res : response),
    handler req d = (d', trace, inr res) /\
    (status res = 200 \/ status res = 404 \/ status res = 405 \/ status res = 500) /\
    headers res = headers (cors fresh_response).
Proof.
  unfold handler.
  destruct (String.eqb (method req) "OPTIONS");
    [do 3 eexists; split; [reflexivity | split; [tauto | reflexivity]] | ].
  destruct (String.eqb (method req) "PUT"); simpl;
    [ | do 3 eexists; split; [reflexivity | split; [tauto | reflexivity]]].
  unfold destructure. expose_run.
  destruct (connectDB d) as [d1 [e | []]]; simpl;
    [do 3 eexists; split; [reflexivity | split; [tauto | reflexivity]] | ].
  destruct (findOne (owner_filter req) d1) as [d2 [e | [g | ]]]; simpl;
    try (do 3 eexists; split; [reflexivity | split; [tauto | reflexivity]]).
  destruct (Js.nullish (body req)); simpl;
    [do 3 eexists; split; [reflexivity | split; [tauto | reflexivity]] | ].
  destruct (save _ d2) as [d3 [e | saved]]; simpl;
    do 3 eexists; (split; [reflexivity | split; [tauto | reflexivity]]).
Qed.

(** X2. When the connection fails, the handler answers 500 with the
    message of the error as [details] and asks the database nothing more;
    when the lookup fails, it answers 500 in the same way and saves
    nothing. *)
Theorem failed_collaborator_is_server_error (req : request) (d : Db) :
  method req = "PUT" ->
  (forall d1 e,
     connectDB d = (d1, inl e) ->
     handler req d =
       (d1, [ConnectDB; ConsoleError "Progress update error:" e],
        inr (reply 500 (Js.Object [("error", Js.String "Server error");
                                   ("details", Eff.message e)])))) /\
  (forall d1 d2 e,
     connectDB d = (d1, inr tt) ->
     findOne (owner_filter req) d1 = (d2, inl e) ->
     handler req d =
       (d2, [ConnectDB; FindOne (owner_filter req);
             ConsoleError "Progress update error:" e],
        inr (reply 500 (Js.Object [("error", Js.String "Server error");
                                   ("details", Eff.message e)])))).
Proof.
  intros Hm. split.
  - intros d1 e Hc. unfold handler. rewrite Hm. expose_run.
    rewrite Hc. reflexivity.
  - intros d1 d2 e Hc Hf. unfold handler. rewrite Hm. expose_run.
    rewrite Hc. simpl. rewrite Hf. reflexivity.
Qed.

(** X3. In any run, [save] is called at most once.  A 200 answer with a
    body was preceded by exactly one call of [save], made after the
    connection and the lookup, and shows the document that call returned;
    a 404 or 405 answer was preceded by none. *)
Theorem success_means_saved
    (req : request) (d d' : Db) (trace : list event) (res : response) :
  handler req d = (d', trace, inr res) ->
  (number_of_saves trace <= 1)%nat /\
  (status res = 200 -> sent res <> None ->
     exists (g saved : goal) (d2 : Db),
       trace = [ConnectDB; FindOne (owner_filter req); Save g] /\
       save g d2 = (d', inr saved) /\
       sent res = Some (success_body saved)) /\
  (status res = 404 \/ status res = 405 -> number_of_saves trace = 0%nat).
Proof.
  assert (Hdone : forall tr (r : response),
            (number_of_saves tr = 0)%nat ->
            (status r = 200 -> sent r = None) ->
            (number_of_saves tr <= 1)%nat /\
            (status r = 200 -> sent r <> None ->
               exists (g saved : goal) (d2 : Db),
                 tr = [ConnectDB; FindOne (owner_filter req); Save g] /\
                 save g d2 = (d', inr saved) /\
                 sent r = Some (success_body saved)) /\
            (status r = 404 \/ status r = 405 -> number_of_saves tr = 0%nat)).
  { intros tr r Hz Hn. split; [lia | ]. split; [ | intros _; exact Hz].
    intros Hs Hb. exfalso. apply Hb. apply Hn. exact Hs. }
  unfold handler.
  destruct (String.eqb (method req) "OPTIONS").
  { intros [= <- <- <-]. apply Hdone; [reflexivity | reflexivity]. }
  destruct (String.eqb (method req) "PUT"); simpl.
  2: { intros [= <- <- <-]. apply Hdone; [reflexivity | discriminate]. }
  unfold destructure. expose_run.
  destruct (connectDB d) as [d1 [e | []]]; simpl.
  { intros [= <- <- <-]. apply Hdone; [reflexivity | discriminate]. }
  destruct (findOne (owner_filter req) d1) as [d2 [e | [g | ]]]; simpl.
  { intros [= <- <- <-]. apply Hdone; [reflexivity | discriminate]. }
  2: { intros [= <- <- <-]. apply Hdone; [reflexivity | discriminate]. }
  destruct (Js.nullish (body req)); simpl.
  { intros [= <- <- <-]. apply Hdone; [reflexivity | discriminate]. }
  destruct (save _ d2) as [d3 [e | saved]] eqn:Hs; simpl.
  { intros [= <- <- <-]. split; [unfold number_of_saves; simpl; lia | ].
    split; [discriminate | intros [Hx | Hx]; discriminate Hx]. }
  intros [= <- <- <-]. split; [unfold number_of_saves; simpl; lia | ].
  split; [ | intros [Hx | Hx]; discriminate Hx].
  intros _ _. do 3 eexists. split; [reflexivity | ]. split; [exact Hs | reflexivity].
Qed.

(** X4. Updates compose as the last write: applying a second body to an
    updated goal gives what the second body alone gives when it supplies
    the field of the goal's type, and leaves the first update otherwise.
    In particular, applying the same body twice changes nothing more. *)
Theorem last_write_wins (g : goal) (cv1 p1 cv2 p2 : Js.value) :
  update (update g cv1 p1) cv2 p2 =
    (if (tracks_value g && Js.is_defined cv2)
        || (negb (tracks_value g) && is_milestone g && Js.is_defined p2)
     then update g cv2 p2
     else update g cv1 p1) /\
  update (update g cv1 p1) cv1 p1 = update g cv1 p1.
Proof.
  assert (Hgen : forall c1 q1 c2 q2,
            update (update g c1 q1) c2 q2 =
              (if (tracks_value g && Js.is_defined c2)
                  || (negb (tracks_value g) && is_milestone g && Js.is_defined q2)
               then update g c2 q2
               else update g c1 q1)).
  { intros c1 q1 c2 q2.
    unfold update at 1.
    rewrite update_keeps_tracks, update_keeps_milestone.
    unfold update.
    destruct (tracks_value g); simpl.
    - destruct (Js.is_defined c2); [ | reflexivity].
      destruct (Js.is_defined c1); [apply set_set | reflexivity].
    - destruct (is_milestone g); simpl; [ | reflexivity].
      destruct (Js.is_defined q2); [ | reflexivity].
      destruct (Js.is_defined q1); [apply set_set | reflexivity]. }
  split; [apply Hgen | ].
  rewrite Hgen.
  destruct ((tracks_value g && Js.is_defined cv1)
            || (negb (tracks_value g) && is_milestone g && Js.is_defined p1));
    reflexivity.
Qed.

(** X5. For any value submitted as [progress], be it a number, a
    string, a boolean, [null] or an object, what the milestone rule
    stores is within 0 and 100 when the value reads as a number, and is
    NaN when it does not. *)
Theorem clamp_of_any_value (v : Js.value) :
  (Js.is_nan (Js.ToNumber v) = false ->
     Js.le Js.pos_zero (clamp v) = true /\ Js.le (clamp v) Js.num_100 = true) /\
  (Js.is_nan (Js.ToNumber v) = true -> clamp v = Js.NaN).
Proof.
  change (clamp v) with (clamp (Js.Number (Js.ToNumber v))).
  split.
  - apply ProgressFacts.clamp_bounds.
  - destruct (Js.ToNumber v); try discriminate. reflexivity.
Qed.

(** X6. Clamping is idempotent: a stored progress submitted again is
    stored as it is. *)
Theorem clamp_idempotent (v : Js.value) :
  clamp (Js.Number (clamp v)) = clamp v.
Proof.
  change (clamp v) with (clamp (Js.Number (Js.ToNumber v))).
  destruct (Js.is_nan (Js.ToNumber v)) eqn:Hn.
  - destruct (Js.ToNumber v); try discriminate. reflexivity.
  - destruct (ProgressFacts.clamp_bounds _ Hn) as [Hlo Hhi].
    destruct (ProgressFacts.clamp_within _ Hlo Hhi) as [E | [E _]]; [exact E | ].
    exfalso. revert E. rewrite (ProgressFacts.clamp_number _ Hn). cbv zeta.
    destruct (Js.ToNumber v) as [[ | ] | [ | ] | | [ | ] m e];
      try discriminate; simpl;
      try discriminate.
    destruct (Js.lt Js.num_100 (S754_finite false m e)); discriminate.
Qed.

(** X7. Clamping keeps the order: of two numbers, the smaller is not
    stored as the larger. *)
Theorem clamp_monotone (x y : Js.number) :
  Js.le x y = true ->
  Js.le (clamp (Js.Number x)) (clamp (Js.Number y)) = true.
Proof.
  intros Hxy.
  assert (Hx : Js.is_nan x = false) by (destruct x; try reflexivity; discriminate).
  assert (Hy : Js.is_nan y = false)
    by (destruct x, y; try reflexivity; discriminate).
  rewrite (ProgressFacts.clamp_number x Hx), (ProgressFacts.clamp_number y Hy).
  cbv zeta.
  set (mx := if Js.lt Js.pos_zero x then x else Js.pos_zero).
  set (my := if Js.lt Js.pos_zero y then y else Js.pos_zero).
  assert (Hmx : Js.is_nan mx = false)
    by (subst mx; destruct (Js.lt Js.pos_zero x); [assumption | reflexivity]).
  assert (Hm : Js.le mx my = true).
  { subst mx my. destruct (Js.lt Js.pos_zero x) eqn:E0.
    - rewrite (lt_le_trans _ _ _ E0 Hxy). exact Hxy.
    - destruct (Js.lt Js.pos_zero y) eqn:E1; [ | reflexivity].
      apply JsFacts.lt_le. exact E1. }
  destruct (Js.lt Js.num_100 mx) eqn:E2.
  - rewrite (lt_le_trans _ _ _ E2 Hm). reflexivity.
  - destruct (Js.lt Js.num_100 my); [ | exact Hm].
    apply JsFacts.not_lt_le; [exact Hmx | reflexivity | exact E2].
Qed.

(** X8. Whatever the goal's type and whatever the body holds, the update
    rule leaves every property but [currentValue] and [progress] as it
    was: the id, the owner and the type of a goal cannot be changed
    through this endpoint. *)
Theorem update_keeps_identity (g : goal) (cv p : Js.value) :
  (forall k, k <> "currentValue" -> k <> "progress" ->
     Js.get (update g cv p) k = Js.get g k) /\
  Js.get (update g cv p) "_id" = Js.get g "_id" /\
  Js.get (update g cv p) "userId" = Js.get g "userId" /\
  Js.get (update g cv p) "type" = Js.get g "type".
Proof.
  assert (Hframe : forall k, k <> "currentValue" -> k <> "progress" ->
            Js.get (update g cv p) k = Js.get g k).
  { intros k Hc Hp. unfold update.
    destruct (tracks_value g);
      [destruct (Js.is_defined cv) | destruct (is_milestone g);
                                      [destruct (Js.is_defined p) | ]];
      try reflexivity; apply JsFacts.get_set_other; assumption. }
  split; [exact Hframe | ].
  repeat split; apply Hframe; discriminate.
Qed.

(** X9. A body that is not an object (a string, a number, a boolean
    or an array) is read as a body with no field: the goal found is
    saved as it is and the answer is the 200 success response. *)
Theorem plain_body_changes_nothing
    (req : request) (d d2 : Db) (g : goal) :
  method req = "PUT" ->
  Finds req d d2 g ->
  Js.nullish (body req) = false ->
  (forall fields, body req <> Js.Object fields) ->
  Saves req d d2 g.
Proof.
  intros Hm Hf Hb Hobj.
  pose proof (ProgressFacts.handler_saves req d d2 g Hm Hf Hb) as Hs.
  assert (Hcv : forall k, Js.property (body req) k = Js.Undefined).
  { intros k. destruct (body req); try reflexivity.
    exfalso. apply (Hobj fields). reflexivity. }
  rewrite !Hcv in Hs. unfold update in Hs. simpl in Hs.
  destruct (tracks_value g); [exact Hs | ].
  destruct (is_milestone g); exact Hs.
Qed.

End Runs.

End HandlerFacts.

(** ** More on the schedule screen *)

Module BlocksFacts.
Import Schedule Blocks.

(** Expose the steps of an action of the screen. *)
Ltac expose_action :=
  unfold request, screen, service, resolved, alert; expose_run.

Lemma find_absent {A} (f : A -> bool) (l : list A) :
  (forall x, In x l -> f x = false) -> find f l = None.
Proof.
  induction l as [ | a l IH]; simpl; intros Hall; [reflexivity | ].
  rewrite (Hall a (or_introl eq_refl)). apply IH.
  intros x Hx. apply Hall. right. exact Hx.
Qed.

Lemma trimStart_blank (s : string) :
  all_white_space s = true -> Js.trimStart s = "".
Proof.
  induction s as [ | c rest IH]; simpl; [reflexivity | ].
  intros Hw. apply andb_prop in Hw. destruct Hw as [Hc Hr].
  rewrite Hc. apply IH. exact Hr.
Qed.

Lemma truthy_nonempty (s : string) : s <> "" -> Js.truthy_string s = true.
Proof. destruct s; [congruence | reflexivity]. Qed.

Section Runs.
Context {W : Type} {svc : ScheduleService W} {blocks : BlockService W}
        {engine : Js.Engine}.

(** X10. [toggleTaskCompletion] does nothing at all, no request and no
    alert, when no schedule id is held yet or when no block of the list
    has the given id. *)
Theorem toggle_needs_schedule_and_block (blockId : string) (w : W) (st : state) :
  scheduleId st = "" \/
  (forall b, In b (schedule st) -> ScheduleBlock.id b <> blockId) ->
  toggleTaskCompletion blockId st (w, st) = ((w, st), [], inr tt).
Proof.
  intros [Hid | Hnone]; unfold toggleTaskCompletion.
  - rewrite Hid. reflexivity.
  - destruct (Js.truthy_string (scheduleId st)); [ | reflexivity]. simpl.
    rewrite find_absent; [reflexivity | ].
    intros b Hb. apply String.eqb_neq. apply Hnone. exact Hb.
Qed.

(** X11. With a schedule id held and a block of the given id in the
    list, [toggleTaskCompletion] sends one request asking for the opposite
    of the completion flag of the first such block.  When it resolves,
    the block list becomes the one of the response and nothing else
    changes; when it rejects or resolves to nothing, the alert 'Failed to
    update task' is raised and the state stays as it was. *)
Theorem toggle_flips_or_alerts
    (blockId : string) (w : W) (st : state) (block : ScheduleBlock.t) :
  scheduleId st <> "" ->
  find (fun b => String.eqb (ScheduleBlock.id b) blockId) (schedule st) = Some block ->
  let req := UpdateScheduleBlock (scheduleId st) blockId
               (negb (ScheduleBlock.completed block)) in
  (forall w' updated,
     updateScheduleBlock (scheduleId st) blockId
       (negb (ScheduleBlock.completed block)) w = (w', inr (Some updated)) ->
     toggleTaskCompletion blockId st (w, st)
       = ((w', showing (Updated.blocks updated) (scheduleId st) st), [req], inr tt)) /\
  (forall w' e,
     updateScheduleBlock (scheduleId st) blockId
       (negb (ScheduleBlock.completed block)) w = (w', inl e) ->
     toggleTaskCompletion blockId st (w, st)
       = ((w', st), [req; Screen (Alert "Error" "Failed to update task")], inr tt)) /\
  (forall w',
     updateScheduleBlock (scheduleId st) blockId
       (negb (ScheduleBlock.completed block)) w = (w', inr None) ->
     toggleTaskCompletion blockId st (w, st)
       = ((w', st), [req; Screen (Alert "Error" "Failed to update task")], inr tt)).
Proof.
  intros Hid Hfind req. subst req.
  unfold toggleTaskCompletion.
  rewrite (truthy_nonempty _ Hid), Hfind. simpl.
  repeat split.
  - intros w' updated Hu. expose_action. rewrite Hu. reflexivity.
  - intros w' e Hu. expose_action. rewrite Hu. reflexivity.
  - intros w' Hu. expose_action. rewrite Hu. reflexivity.
Qed.

(** X12. [deleteTask] first raises the confirmation, with a Cancel and a
    destructive Delete button.  Unless the user presses Delete, and
    whenever no schedule id is held, nothing follows: no request, no
    change.  The only request that can follow is the deletion of the given
    block from the schedule held, and the action never ends in an
    exception. *)
Theorem delete_asks_first
    (blockId : string) (w : W) (st : state) (pressed : option button) :
  exists (w' : W) (st' : state) (rest : list event),
    deleteTask blockId st pressed (w, st)
      = ((w', st'),
         Confirm "Delete Task" "Are you sure you want to delete this task?"
           [("Cancel", "cancel"); ("Delete", "destructive")] :: rest,
         inr tt) /\
    (pressed <> Some Delete \/ scheduleId st = "" ->
       rest = [] /\ w' = w /\ st' = st) /\
    (forall ev, In ev rest -> is_request ev = true ->
       ev = DeleteScheduleBlock (scheduleId st) blockId /\ pressed = Some Delete).
Proof.
  unfold deleteTask, onPressDelete.
  destruct pressed as [[ | ] | ].
  - exists w, st, []. split; [reflexivity | ].
    split; [intros _; repeat split | intros ev []].
  - destruct (scheduleId st) as [ | c sid] eqn:Hid.
    + exists w, st, []. split; [reflexivity | ].
      split; [intros _; repeat split | intros ev []].
    + simpl. expose_action.
      destruct (deleteScheduleBlock (String c sid) blockId w)
        as [w' [e | [updated | ]]]; simpl;
        do 3 eexists; (split; [reflexivity | ]);
        (split; [intros [H | H]; [congruence | discriminate] | ]);
        intros ev Hin Hreq; simpl in Hin;
        repeat (destruct Hin as [<- | Hin]; [ | ]);
        try contradiction; try discriminate Hreq;
        split; reflexivity.
  - exists w, st, []. split; [reflexivity | ].
    split; [intros _; repeat split | intros ev []].
Qed.

(** X13. Once Delete is pressed with a schedule id held, one deletion
    request is sent.  When it resolves, the block list becomes the one of
    the response and nothing else changes; when it rejects or resolves to
    nothing, the alert 'Failed to delete task' is raised and the state
    stays as it was. *)
Theorem delete_replaces_or_alerts (blockId : string) (w : W) (st : state) :
  scheduleId st <> "" ->
  (forall w' updated,
     deleteScheduleBlock (scheduleId st) blockId w = (w', inr (Some updated)) ->
     onPressDelete blockId st (w, st)
       = ((w', showing (Updated.blocks updated) (scheduleId st) st),
          [DeleteScheduleBlock (scheduleId st) blockId], inr tt)) /\
  (forall w' e,
     deleteScheduleBlock (scheduleId st) blockId w = (w', inl e) ->
     onPressDelete blockId st (w, st)
       = ((w', st),
          [DeleteScheduleBlock (scheduleId st) blockId;
           Screen (Alert "Error" "Failed to delete task")], inr tt)) /\
  (forall w',
     deleteScheduleBlock (scheduleId st) blockId w = (w', inr None) ->
     onPressDelete blockId st (w, st)
       = ((w', st),
          [DeleteScheduleBlock (scheduleId st) blockId;
           Screen (Alert "Error" "Failed to delete task")], inr tt)).
Proof.
  intros Hid. unfold onPressDelete.
  rewrite (truthy_nonempty _ Hid). simpl.
  repeat split.
  - intros w' updated Hu. expose_action. rewrite Hu. reflexivity.
  - intros w' e Hu. expose_action. rewrite Hu. reflexivity.
  - intros w' Hu. expose_action. rewrite Hu. reflexivity.
Qed.

(** X14. A title made of white space only is refused like an empty
    one: [addTask] raises the validation alert, makes no request and
    changes nothing. *)
Theorem blank_title_is_refused (w : W) (st : state) :
  all_white_space (NewTask.title (newTask st)) = true ->
  addTask st (w, st)
    = ((w, st), [Alert "Error" "Please enter a task title"], inr tt).
Proof.
  intros Hw. unfold addTask, Js.trim.
  rewrite (trimStart_blank _ Hw). reflexivity.
Qed.

(** X15. With a title that is not blank, [addTask] asks for a block id,
    formats the date and sends the whole list: the blocks held, in order,
    followed by one new block that is not completed, has no goal, and
    carries the title as typed, untrimmed.  When the request resolves, the
    list and the schedule id become those of the response, the modal is
    closed and the form is reset. *)
Theorem add_sends_list_and_resets
    (w w1 w2 w3 : W) (st : state) (id dateStr : string) (updated : Updated.t) :
  Js.trim (NewTask.title (newTask st)) <> "" ->
  generateBlockId w = (w1, inr id) ->
  formatDateForAPI (selectedDate st) w1 = (w2, inr dateStr) ->
  updateSchedule dateStr (schedule st ++ [new_block id st]) w2
    = (w3, inr (Some updated)) ->
  addTask st (w, st)
    = ((w3, added updated st),
       [GenerateBlockId; FormatDateForAPI (selectedDate st);
        UpdateSchedule dateStr (schedule st ++ [new_block id st])],
       inr tt) /\
  ScheduleBlock.title (new_block id st) = NewTask.title (newTask st) /\
  ScheduleBlock.completed (new_block id st) = false /\
  ScheduleBlock.goalId (new_block id st) = None /\
  showAddModal (added updated st) = false /\
  newTask (added updated st) = blank_task.
Proof.
  intros Ht Hg Hf Hu. split; [ | repeat split].
  unfold addTask. rewrite (truthy_nonempty _ Ht). simpl.
  unfold service, resolved. expose_run.
  rewrite Hg. simpl. rewrite Hf. simpl.
  unfold new_block in Hu. rewrite Hu. reflexivity.
Qed.

(** X16. When [addTask] cannot save, because the request rejects or
    resolves to nothing, or because the date cannot be formatted, it
    raises the alert 'Failed to add task' and leaves the state as it was:
    the modal stays open and the form keeps what was typed. *)
Theorem add_failure_keeps_form
    (w w1 : W) (st : state) (id : string) :
  Js.trim (NewTask.title (newTask st)) <> "" ->
  generateBlockId w = (w1, inr id) ->
  (forall w2 w3 dateStr e,
     formatDateForAPI (selectedDate st) w1 = (w2, inr dateStr) ->
     updateSchedule dateStr (schedule st ++ [new_block id st]) w2 = (w3, inl e) ->
     addTask st (w, st)
       = ((w3, st),
          [GenerateBlockId; FormatDateForAPI (selectedDate st);
           UpdateSchedule dateStr (schedule st ++ [new_block id st]);
           Alert "Error" "Failed to add task"],
          inr tt)) /\
  (forall w2 w3 dateStr,
     formatDateForAPI (selectedDate st) w1 = (w2, inr dateStr) ->
     updateSchedule dateStr (schedule st ++ [new_block id st]) w2 = (w3, inr None) ->
     addTask st (w, st)
       = ((w3, st),
          [GenerateBlockId; FormatDateForAPI (selectedDate st);
           UpdateSchedule dateStr (schedule st ++ [new_block id st]);
           Alert "Error" "Failed to add task"],
          inr tt)) /\
  (forall w2 e,
     formatDateForAPI (selectedDate st) w1 = (w2, inl e) ->
     addTask st (w, st)
       = ((w2, st),
          [GenerateBlockId; FormatDateForAPI (selectedDate st);
           Alert "Error" "Failed to add task"],
          inr tt)).
Proof.
  intros Ht Hg.
  unfold addTask. rewrite (truthy_nonempty _ Ht). simpl.
  unfold service, resolved, alert. expose_run. rewrite Hg. simpl.
  repeat split.
  - intros w2 w3 dateStr e Hf Hu. rewrite Hf. simpl.
    unfold new_block in Hu. rewrite Hu. reflexivity.
  - intros w2 w3 dateStr Hf Hu. rewrite Hf. simpl.
    unfold new_block in Hu. rewrite Hu. reflexivity.
  - intros w2 e Hf. rewrite Hf. reflexivity.
Qed.

(** X17. The block id is asked for outside the [try]: when
    [generateBlockId] throws, [addTask] ends in that exception, having
    sent no request, raised no alert and changed nothing. *)
Theorem add_id_failure_escapes (w w1 : W) (st : state) (e : Eff.exn) :
  Js.trim (NewTask.title (newTask st)) <> "" ->
  generateBlockId w = (w1, inl e) ->
  addTask st (w, st) = ((w1, st), [GenerateBlockId], inl e).
Proof.
  intros Ht Hg. unfold addTask. rewrite (truthy_nonempty _ Ht). simpl.
  unfold service. expose_run. rewrite Hg. reflexivity.
Qed.

(** X18. A refresh by a signed-in user always ends, whatever the
    service does, without an exception and with [refreshing] and [loading]
    both off.  With no user, it only turns [refreshing] on: no request is
    made and nothing turns it off again. *)
Theorem refresh_always_settles (w : W) (st : state) :
  (forall u : Js.object,
     exists (w' : W) (st' : state) (trace : list Schedule.event),
       onRefresh (Some u) st (w, st) = ((w', st'), trace, inr tt) /\
       refreshing st' = false /\ loading st' = false) /\
  (exists st' : state,
     onRefresh None st (w, st) = ((w, st'), [], inr tt) /\
     refreshing st' = true /\
     schedule st' = schedule st /\ scheduleId st' = scheduleId st /\
     loading st' = loading st).
Proof.
  split.
  - intros u. unfold onRefresh, fetchSchedule, service, resolved, alert.
    expose_run.
    destruct (formatDateForAPI (selectedDate st) w) as [w1 [e | dateStr]]; simpl;
      [do 3 eexists; split; [reflexivity | split; reflexivity] | ].
    destruct (getSchedule dateStr w1) as [w2 [e | [data | ]]]; simpl;
      do 3 eexists; (split; [reflexivity | split; reflexivity]).
  - eexists. split; [reflexivity | repeat split].
Qed.

End Runs.


End BlocksFacts.

(** ** The tab bar *)

Module NavigatorFacts.
Import Navigator.

(** X20. Each of the four tabs has its own icon, whose unfocused form is
    the focused name followed by "-outline"; no two tabs or focus states
    share an icon, and any other route shows "alert-circle" whether
    focused or not. *)
Theorem tab_icons_are_distinct :
  (forall r, In r tabs ->
     tabBarIcon r false = String.append (tabBarIcon r true) "-outline") /\
  (forall r1 r2 f1 f2, In r1 tabs -> In r2 tabs ->
     tabBarIcon r1 f1 = tabBarIcon r2 f2 -> r1 = r2 /\ f1 = f2) /\
  (forall r f, ~ In r tabs -> tabBarIcon r f = "alert-circle").
Proof.
  split; [ | split].
  - intros r Hr. simpl in Hr.
    destruct Hr as [<- | [<- | [<- | [<- | []]]]]; reflexivity.
  - intros r1 r2 f1 f2 H1 H2. simpl in H1, H2.
    destruct H1 as [<- | [<- | [<- | [<- | []]]]];
      destruct H2 as [<- | [<- | [<- | [<- | []]]]];
      destruct f1, f2; simpl; intros E;
      first [discriminate E | split; reflexivity].
  - intros r f Hr. unfold tabBarIcon.
    destruct (String.eqb r "Dashboard") eqn:E1;
      [apply String.eqb_eq in E1; exfalso; apply Hr; subst; simpl; tauto | ].
    destruct (String.eqb r "Goals") eqn:E2;
      [apply String.eqb_eq in E2; exfalso; apply Hr; subst; simpl; tauto | ].
    destruct (String.eqb r "Schedule") eqn:E3;
      [apply String.eqb_eq in E3; exfalso; apply Hr; subst; simpl; tauto | ].
    destruct (String.eqb r "Profile") eqn:E4;
      [apply String.eqb_eq in E4; exfalso; apply Hr; subst; simpl; tauto | ].
    reflexivity.
Qed.

End NavigatorFacts.

(** ** More concrete runs *)

Module HandlerRuns.
Import Progress Memory Trace.

#[local] Existing Instance engine.

(** With the database down, or not answering, a PUT is answered 500. *)
Lemma failed_collaborator_is_server_error_witness :
  handler (store := Faulty.store) (request_of "PUT" "g1" (Js.Object [])) Faulty.down
    = (Faulty.down,
       [ConnectDB; ConsoleError "Progress update error:" Faulty.refused],
       inr (reply 500 (Js.Object [("error", Js.String "Server error");
                                  ("details", Js.String "connect ECONNREFUSED")]))) /\
  handler (store := Faulty.store) (request_of "PUT" "g1" (Js.Object [])) Faulty.degraded
    = (Faulty.degraded,
       [ConnectDB; FindOne (owner_filter (request_of "PUT" "g1" (Js.Object [])));
        ConsoleError "Progress update error:" Faulty.timed_out],
       inr (reply 500 (Js.Object [("error", Js.String "Server error");
                                  ("details", Js.String "operation timed out")]))).
Proof.
  split.
  - destruct (HandlerFacts.failed_collaborator_is_server_error
                (store := Faulty.store)
                (request_of "PUT" "g1" (Js.Object [])) Faulty.down eq_refl)
      as [Hconnect _].
    apply (Hconnect Faulty.down Faulty.refused). reflexivity.
  - destruct (HandlerFacts.failed_collaborator_is_server_error
                (store := Faulty.store)
                (request_of "PUT" "g1" (Js.Object [])) Faulty.degraded eq_refl)
      as [_ Hlookup].
    apply (Hlookup Faulty.degraded Faulty.degraded Faulty.timed_out); reflexivity.
Defined.

(** A successful PUT on [g1] called [save] exactly once. *)
Lemma success_means_saved_witness :
  (number_of_saves
     (snd (fst (handler (store := sample_store)
                  (request_of "PUT" "g1" (Js.Object [("progress", Js.Number Js.num_50)]))
                  sample_db))) <= 1)%nat.
Proof.
  destruct (handler (store := sample_store)
              (request_of "PUT" "g1" (Js.Object [("progress", Js.Number Js.num_50)]))
              sample_db) as [[d' trace] [e | res]] eqn:Hrun.
  - discriminate Hrun.
  - destruct (HandlerFacts.success_means_saved (store := sample_store)
                _ _ _ _ _ Hrun) as [Hle _].
    exact Hle.
Defined.

(** A [null] progress reads as a number and is stored within range. *)
Lemma clamp_of_any_value_witness :
  Js.le Js.pos_zero (clamp Js.Null) = true /\
  Js.le (clamp Js.Null) Js.num_100 = true.
Proof.
  destruct (HandlerFacts.clamp_of_any_value Js.Null) as [Hin _].
  apply Hin. reflexivity.
Defined.

(** 20 is not stored above 150. *)
Lemma clamp_monotone_witness :
  Js.le (clamp (Js.Number Js.num_20)) (clamp (Js.Number Js.num_150)) = true.
Proof.
  apply HandlerFacts.clamp_monotone. reflexivity.
Defined.

(** The owner of the numeric goal survives any body. *)
Lemma update_keeps_identity_witness :
  Js.get (update numeric_goal (Js.String "mine") (Js.Bool true)) "userId"
    = Js.get numeric_goal "userId".
Proof.
  destruct (HandlerFacts.update_keeps_identity
              numeric_goal (Js.String "mine") (Js.Bool true)) as [Hframe _].
  apply Hframe; discriminate.
Defined.

(** A body that is the string 'done' saves the milestone goal as found. *)
Lemma plain_body_changes_nothing_witness :
  Saves (store := sample_store) (request_of "PUT" "g1" (Js.String "done"))
        sample_db sample_db milestone_goal.
Proof.
  apply (HandlerFacts.plain_body_changes_nothing (store := sample_store)).
  - reflexivity.
  - exists sample_db. split; reflexivity.
  - reflexivity.
  - intros fields. discriminate.
Defined.

End HandlerRuns.

Module BlocksRuns.
Import Schedule Blocks.

#[local] Existing Instance Memory.engine.
#[local] Existing Instance Schedule.Demo.service.
#[local] Existing Instance Blocks.Demo.blocks.

(** Before any schedule is saved, a tap on a task does nothing. *)
Lemma toggle_needs_schedule_and_block_witness :
  toggleTaskCompletion "b1" Demo.unsaved (Demo.up, Demo.unsaved)
    = ((Demo.up, Demo.unsaved), [], inr tt).
Proof.
  apply BlocksFacts.toggle_needs_schedule_and_block. left. reflexivity.
Defined.

(** A tap on the walk, not yet done, asks for it to be completed. *)
Lemma toggle_flips_or_alerts_witness :
  toggleTaskCompletion "b1" Demo.screen (Demo.up, Demo.screen)
    = ((Demo.up,
        showing [Demo.with_completed "b1" true Schedule.Demo.walk; Schedule.Demo.read]
                "s7" Demo.screen),
       [UpdateScheduleBlock "s7" "b1" true], inr tt).
Proof.
  destruct (BlocksFacts.toggle_flips_or_alerts "b1" Demo.up Demo.screen
              Schedule.Demo.walk) as [Hok _].
  - discriminate.
  - reflexivity.
  - apply (Hok Demo.up
             (Updated.Make
                [Demo.with_completed "b1" true Schedule.Demo.walk; Schedule.Demo.read]
                "s7")).
    reflexivity.
Defined.

(** Pressing Cancel leaves everything as it was. *)
Lemma delete_asks_first_witness :
  exists rest : list event,
    deleteTask "b2" Demo.screen (Some Cancel) (Demo.up, Demo.screen)
      = ((Demo.up, Demo.screen),
         Confirm "Delete Task" "Are you sure you want to delete this task?"
           [("Cancel", "cancel"); ("Delete", "destructive")] :: rest,
         inr tt) /\
    rest = [].
Proof.
  destruct (BlocksFacts.delete_asks_first "b2" Demo.up Demo.screen (Some Cancel))
    as (w' & st' & rest & Hrun & Hquiet & _).
  destruct Hquiet as (Hrest & Hw & Hst); [left; discriminate | ].
  subst. exists []. split; [exact Hrun | reflexivity].
Defined.

(** Pressing Delete for the reading block leaves the walk. *)
Lemma delete_replaces_or_alerts_witness :
  onPressDelete "b2" Demo.screen (Demo.up, Demo.screen)
    = ((Demo.up, showing [Schedule.Demo.walk] "s7" Demo.screen),
       [DeleteScheduleBlock "s7" "b2"], inr tt).
Proof.
  destruct (BlocksFacts.delete_replaces_or_alerts "b2" Demo.up Demo.screen)
    as [Hok _].
  - discriminate.
  - apply (Hok Demo.up (Updated.Make [Schedule.Demo.walk] "s7")). reflexivity.
Defined.

(** Three spaces are no title. *)
Lemma blank_title_is_refused_witness :
  addTask Demo.spaces (Demo.up, Demo.spaces)
    = ((Demo.up, Demo.spaces), [Alert "Error" "Please enter a task title"], inr tt).
Proof.
  apply BlocksFacts.blank_title_is_refused. reflexivity.
Defined.

(** Adding ' Stretch ' sends it after the block held, spaces included. *)
Lemma add_sends_list_and_resets_witness :
  exists (w3 : Schedule.Demo.world) (updated : Updated.t),
    addTask Demo.typing (Schedule.Demo.up, Demo.typing)
      = ((w3, added updated Demo.typing),
         [GenerateBlockId; FormatDateForAPI 0;
          UpdateSchedule "1970-01-01"
            [Schedule.Demo.read;
             ScheduleBlock.Make "b9" " Stretch " physical "06:00" "06:15" false None]],
         inr tt).
Proof.
  eexists. eexists.
  apply (BlocksFacts.add_sends_list_and_resets
           Schedule.Demo.up Schedule.Demo.up Schedule.Demo.up _
           Demo.typing "b9" "1970-01-01").
  - discriminate.
  - reflexivity.
  - reflexivity.
  - reflexivity.
Defined.

(** Adding while the service is down keeps the form. *)
Lemma add_failure_keeps_form_witness :
  addTask Demo.typing (Schedule.Demo.down, Demo.typing)
    = ((Schedule.Demo.down, Demo.typing),
       [GenerateBlockId; FormatDateForAPI 0;
        UpdateSchedule "1970-01-01"
          (schedule Demo.typing ++ [new_block "b9" Demo.typing]);
        Alert "Error" "Failed to add task"],
       inr tt).
Proof.
  destruct (BlocksFacts.add_failure_keeps_form
              Schedule.Demo.down Schedule.Demo.down Demo.typing "b9")
    as [Hreject _].
  - discriminate.
  - reflexivity.
  - apply (Hreject Schedule.Demo.down Schedule.Demo.down "1970-01-01"
             Schedule.Demo.offline_error); reflexivity.
Defined.

(** Without ids, adding ends in the exception of the generator. *)
Lemma add_id_failure_escapes_witness :
  addTask (svc := Demo.without_ids) Demo.typing (Schedule.Demo.up, Demo.typing)
    = ((Schedule.Demo.up, Demo.typing), [GenerateBlockId], inl Demo.no_entropy).
Proof.
  apply (BlocksFacts.add_id_failure_escapes (svc := Demo.without_ids)).
  - discriminate.
  - reflexivity.
Defined.

(** The Goals tab, unfocused. *)
Lemma tab_icons_are_distinct_witness :
  Navigator.tabBarIcon "Goals" false = "flag-outline".
Proof.
  destruct NavigatorFacts.tab_icons_are_distinct as [Houtline _].
  rewrite (Houtline "Goals"); [reflexivity | simpl; tauto].
Defined.

End BlocksRuns.
